(** * ddpui/api/warehouse_api.py: the warehouse API handlers

    A shallow embedding of the handlers of [ddpui/api/warehouse_api.py] that
    submit background work and manage saved LLM sessions:
    [post_data_insights], [post_warehouse_prompt],
    [post_save_warehouse_prompt_session], [post_feedback_llm_session] and
    [get_warehouse_llm_analysis_sessions].

    A handler is a function from the state of the outside world (database
    tables, redis, the celery broker) to a result and a new state.  A Python
    exception is a result of its own: nothing is rolled back when a handler
    raises, exactly as in the source, which opens no transaction. *)

From Stdlib Require Import ZArith String Ascii List Lia DecimalString DecimalPos.
From stdpp Require Import base strings gmap list sorting.

Open Scope Z_scope.

(** ** Python built-ins used by the handlers *)

(** [str.upper] on the ASCII range (the keyword compared against is ASCII). *)
Definition upper_ascii (c : ascii) : ascii :=
  let n := nat_of_ascii c in
  if ((97 <=? n) && (n <=? 122))%nat then ascii_of_nat (n - 32) else c.

Fixpoint upper (s : string) : string :=
  match s with
  | EmptyString => EmptyString
  | String c rest => String (upper_ascii c) (upper rest)
  end.

Definition digit_of (c : ascii) : option Z :=
  let n := Z.of_nat (nat_of_ascii c) in
  if (48 <=? n) && (n <=? 57) then Some (n - 48) else None.

Fixpoint digits_value (s : string) (acc : Z) : option Z :=
  match s with
  | EmptyString => Some acc
  | String c rest =>
      match digit_of c with
      | Some d => digits_value rest (10 * acc + d)
      | None => None
      end
  end.

(** [int(text)] on the text of an integer literal: an optional sign and
    decimal digits.  [None] stands for the [ValueError] Python raises. *)
Definition py_int (s : string) : option Z :=
  match s with
  | EmptyString => None
  | String "-"%char (String _ _ as rest) => Z.opp <$> digits_value rest 0
  | String "+"%char (String _ _ as rest) => digits_value rest 0
  | String _ _ => digits_value s 0
  end.

(** [str(n)], also what an f-string does with an [int]. *)
Definition py_str (n : Z) : string := NilZero.string_of_int (Z.to_int n).

(** [limit = float("inf")], later replaced by an [int]. *)
Inductive Limit :=
| Inf
| Fin (n : Z).

(** [limit > bound] for an [int] bound. *)
Definition limit_gt (limit : Limit) (bound : Z) : bool :=
  match limit with
  | Inf => true
  | Fin n => bound <? n
  end.

(** ** sqlparse *)

(** A token type of [sqlparse.tokens] is a path of names: [Keyword] is
    [Token.Keyword], [Keyword.DML] is [Token.Keyword.DML].  Token types are
    interned, so the source's [is] is equality of paths. *)
Definition TokenType := list string.

Definition Keyword : TokenType := ["Keyword"%string].
Definition Keyword_DML : TokenType := ["Keyword"%string; "DML"%string].
Definition Keyword_DDL : TokenType := ["Keyword"%string; "DDL"%string].
Definition Whitespace : TokenType := ["Text"%string; "Whitespace"%string].
Definition Wildcard : TokenType := ["Wildcard"%string].
Definition Punctuation : TokenType := ["Punctuation"%string].
Definition Literal_Number_Integer : TokenType :=
  ["Literal"%string; "Number"%string; "Integer"%string].

(** One entry of [stmt.tokens], the top-level token list of a statement.  A
    grouped node (an identifier, a parenthesis, a where clause) is a single
    entry whose [ttype] is [None]. *)
Record Token := {
  ttype : option TokenType;
  value : string;
}.

(** A [sqlparse.sql.Statement]: its top-level tokens and what its
    [get_type()] answers. *)
Record Statement := {
  tokens : list Token;
  get_type : string;
}.

Definition ttype_is (t : TokenType) (token : Token) : bool :=
  bool_decide (ttype token = Some t).

(** The test of the first [if] of the scanning loop, without [limit_found]. *)
Definition is_limit_keyword (token : Token) : bool :=
  ttype_is Keyword token && bool_decide (upper (value token) = "LIMIT"%string).

(** ** Exceptions and HTTP responses *)

Inductive Exception :=
| HttpError (status_code : Z) (message : string)
| PyError (name : string).

(** What the client sees. [HttpError] is rendered by ninja with its status
    and message; anything else goes to [ninja_default_error_handler]. *)
Inductive Response (A : Type) :=
| Http200 (body : A)
| HttpFail (status_code : Z) (detail : string).
Arguments Http200 {A} body.
Arguments HttpFail {A} status_code detail.

Definition ninja_default_error_handler {A} (exc : Exception) : Response A :=
  HttpFail 500 "something went wrong".

Definition respond {A} (r : Exception + A) : Response A :=
  match r with
  | inr body => Http200 body
  | inl (HttpError status_code message) => HttpFail status_code message
  | inl exc => ninja_default_error_handler exc
  end.

Definition status_of {A} (r : Response A) : Z :=
  match r with
  | Http200 _ => 200
  | HttpFail status_code _ => status_code
  end.

(** ** Models *)

Module LlmSessionStatus.
(** Modelled from the spec: ddpui/models/llm.py is not among the sources;
    the members are those of the spec's [session_status] enum. *)
Inductive t := RUNNING | COMPLETE | ERROR.
#[global] Instance status_eq_dec : EqDecision t.
Proof. solve_decision. Defined.
End LlmSessionStatus.

Module LlmAssistantType.
(** Modelled from the spec: ddpui/models/llm.py is not among the sources;
    the handlers name one member, [OTHER] stands for any other member of
    the spec's [session_type] enum. *)
Inductive t := LONG_TEXT_SUMMARIZATION | OTHER (name : string).
#[global] Instance assistant_type_eq_dec : EqDecision t.
Proof. solve_decision. Defined.
End LlmAssistantType.

Module GenerateResult.
(** Modelled from the spec: ddpui/datainsights/generate_result.py is not
    among the sources; the members are the statuses of a Progress Entry. *)
Inductive status := RESULT_STATUS_FETCHING | RESULT_STATUS_ERROR | RESULT_STATUS_SUCCESS.
End GenerateResult.

(** Rows are identified by their primary key; an [Org] is referred to by its
    primary key. *)
Record OrgUser := {
  orguser_id : Z;
  orguser_org : Z;
}.

Record OrgWarehouse := {
  wh_id : Z;
  wh_org : Z;
  wtype : string;
}.

(** Modelled from the spec: the [LlmSession] model (ddpui/models/llm.py) is
    not among the sources.  The fields are the ones the handlers read or
    write and the spec's Session lists; [created_by_email] is
    [session.orguser.user.email]. *)
Record LlmSession := {
  pk : Z;
  session_id : string;
  org : Z;
  session_type : LlmAssistantType.t;
  session_status : LlmSessionStatus.t;
  session_name : option string;
  request_uuid : string;
  request_meta : string;
  assistant_prompt : string;
  response : string;
  feedback : option string;
  created_at : Z;
  updated_at : Z;
  created_by_email : string;
}.

(** ** Request and response payloads *)

Record RequestorColumnSchema := {
  db_schema : string;
  db_table : string;
  column_name : string;
}.

Record AskWarehouseRequest := {
  sql : string;
  user_prompt : string;
}.

Record SaveLlmSessionRequest := {
  save_session_name : string;
  overwrite : bool;
  old_session_id : option string;
}.

Record LlmSessionFeedbackRequest := {
  payload_feedback : string;
}.

(** One element of ["rows"] in the answer of the listing handler. *)
Module SessionRow.
Record t := {
  session_id : string;
  session_name : option string;
  session_status : LlmSessionStatus.t;
  request_uuid : string;
  request_meta : string;
  assistant_prompt : string;
  response : string;
  created_at : Z;
  updated_at : Z;
  created_by_email : string;
}.
End SessionRow.

Record SessionsPage := {
  page_limit : Z;
  page_offset : Z;
  total_rows : Z;
  rows : list SessionRow.t;
}.

(** ** The world outside the handler *)

(** An entry of a task's progress log. *)
Record ProgressEntry := {
  message : string;
  status : GenerateResult.status;
  results : list string;
}.

(** A message handed to the celery broker. *)
Inductive CeleryTask :=
| poll_for_column_insights (org_warehouse_id : Z) (payload : RequestorColumnSchema) (task_id : string)
| summarize_warehouse_results (orguser_id org_warehouse_id : Z) (sql user_prompt : string).

Record World := {
  orgwarehouses : list OrgWarehouse;
  llmsessions : list LlmSession;
  celery_queue : list CeleryTask;
  taskprogress : gmap string (list ProgressEntry);
  singletaskprogress : gmap string Z;
}.

(** What the outside decides during one request: the value [uuid.uuid4()]
    draws, the clock, whether redis answers, and whether the broker accepts a
    task ([Some] of the id it gives the task) or the call raises ([None]). *)
Record Env := {
  uuid4 : string;
  now : Z;
  redis_up : bool;
  broker : option string;
}.

Definition with_llmsessions (f : list LlmSession -> list LlmSession) (w : World) : World :=
  {| orgwarehouses := orgwarehouses w;
     llmsessions := f (llmsessions w);
     celery_queue := celery_queue w;
     taskprogress := taskprogress w;
     singletaskprogress := singletaskprogress w |}.

Definition with_celery_queue (f : list CeleryTask -> list CeleryTask) (w : World) : World :=
  {| orgwarehouses := orgwarehouses w;
     llmsessions := llmsessions w;
     celery_queue := f (celery_queue w);
     taskprogress := taskprogress w;
     singletaskprogress := singletaskprogress w |}.

Definition with_taskprogress
    (f : gmap string (list ProgressEntry) -> gmap string (list ProgressEntry)) (w : World) : World :=
  {| orgwarehouses := orgwarehouses w;
     llmsessions := llmsessions w;
     celery_queue := celery_queue w;
     taskprogress := f (taskprogress w);
     singletaskprogress := singletaskprogress w |}.

Definition with_singletaskprogress (f : gmap string Z -> gmap string Z) (w : World) : World :=
  {| orgwarehouses := orgwarehouses w;
     llmsessions := llmsessions w;
     celery_queue := celery_queue w;
     taskprogress := taskprogress w;
     singletaskprogress := f (singletaskprogress w) |}.

(** ** Handlers as state transformers that may raise *)

Definition M (A : Type) : Type := World -> (Exception + A) * World.

Definition ret {A} (a : A) : M A := fun w => (inr a, w).

Definition raise {A} (exc : Exception) : M A := fun w => (inl exc, w).

Definition bind {A B} (m : M A) (k : A -> M B) : M B :=
  fun w =>
    match m w with
    | (inl exc, w') => (inl exc, w')
    | (inr a, w') => k a w'
    end.

(** [try: m  except Exception as error: handler error] *)
Definition try_except {A} (m : M A) (handler : Exception -> M A) : M A :=
  fun w =>
    match m w with
    | (inl exc, w') => handler exc w'
    | (inr a, w') => (inr a, w')
    end.

Notation "'let*' x ':=' m 'in' k" := (bind m (fun x => k))
  (at level 10, x name, m at level 100, k at level 200).
Notation "'run' m 'in' k" := (bind m (fun _ => k))
  (at level 10, m at level 100, k at level 200).

(** ** The ORM *)

(** [QuerySet.first()] on an unordered queryset: the row with the least
    primary key, [None] when there is no row. *)
Definition first {A} (key : A -> Z) (table : list A) : option A :=
  foldr (fun row acc =>
           match acc with
           | Some best => if key best <? key row then Some best else Some row
           | None => Some row
           end) None table.

(** [OrgWarehouse.objects.filter(org=org).first()] *)
Definition OrgWarehouse_first (org_ : Z) : M (option OrgWarehouse) :=
  fun w =>
    (inr (first wh_id (List.filter (fun wh => bool_decide (wh_org wh = org_)) (orgwarehouses w))), w).

(** The filter [session_id=..., org=org,
    session_type=LlmAssistantType.LONG_TEXT_SUMMARIZATION] on one row. *)
Definition LlmSession_matches (sid : option string) (org_ : Z) (s : LlmSession) : bool :=
  bool_decide (Some (session_id s) = sid)
  && bool_decide (org s = org_)
  && bool_decide (session_type s = LlmAssistantType.LONG_TEXT_SUMMARIZATION).

(** [LlmSession.objects.filter(session_id=..., org=org, session_type=...).first()] *)
Definition LlmSession_first (sid : option string) (org_ : Z) : M (option LlmSession) :=
  fun w => (inr (first pk (List.filter (LlmSession_matches sid org_) (llmsessions w))), w).

(** [instance.delete()]: the row with the instance's primary key goes. *)
Definition LlmSession_delete (s : LlmSession) : M unit :=
  fun w => (inr tt, with_llmsessions (List.filter (fun row => negb (pk row =? pk s))) w).

(** The [updated_at] column is set on every save, as [auto_now] does for the
    models of ddpui/models/org.py. *)
Definition touch (env : Env) (s : LlmSession) : LlmSession :=
  {| pk := pk s; session_id := session_id s; org := org s;
     session_type := session_type s; session_status := session_status s;
     session_name := session_name s; request_uuid := request_uuid s;
     request_meta := request_meta s; assistant_prompt := assistant_prompt s;
     response := response s; feedback := feedback s;
     created_at := created_at s; updated_at := now env;
     created_by_email := created_by_email s |}.

(** [instance.save()] of an instance that has a primary key: the row with
    that key is overwritten with the instance's fields; when no row has it
    any more, the instance is inserted. *)
Definition LlmSession_save (env : Env) (s : LlmSession) : M unit :=
  fun w =>
    (inr tt,
     with_llmsessions
       (fun table =>
          if existsb (fun row => pk row =? pk s) table
          then map (fun row => if pk row =? pk s then touch env s else row) table
          else table ++ [touch env s]) w).

(** [new_session.session_name = name] *)
Definition set_session_name (name : string) (s : LlmSession) : LlmSession :=
  {| pk := pk s; session_id := session_id s; org := org s;
     session_type := session_type s; session_status := session_status s;
     session_name := Some name; request_uuid := request_uuid s;
     request_meta := request_meta s; assistant_prompt := assistant_prompt s;
     response := response s; feedback := feedback s;
     created_at := created_at s; updated_at := updated_at s;
     created_by_email := created_by_email s |}.

(** [session.feedback = text] *)
Definition set_feedback (text : string) (s : LlmSession) : LlmSession :=
  {| pk := pk s; session_id := session_id s; org := org s;
     session_type := session_type s; session_status := session_status s;
     session_name := session_name s; request_uuid := request_uuid s;
     request_meta := request_meta s; assistant_prompt := assistant_prompt s;
     response := response s; feedback := Some text;
     created_at := created_at s; updated_at := updated_at s;
     created_by_email := created_by_email s |}.

(** The filter [org=org, session_name__isnull=False, session_type=...] of the
    listing handler on one row. *)
Definition is_saved_session (org_ : Z) (s : LlmSession) : bool :=
  bool_decide (org s = org_)
  && bool_decide (session_name s <> None)
  && bool_decide (session_type s = LlmAssistantType.LONG_TEXT_SUMMARIZATION).

(** [order_by("-updated_at")]: the later update comes first.  Rows updated at
    the same time come in an order the database chooses; the sort below fixes
    one. *)
Definition updated_later (s1 s2 : LlmSession) : Prop := updated_at s2 <= updated_at s1.

#[global] Instance updated_later_dec : RelDecision updated_later.
Proof. intros s1 s2. unfold updated_later. apply _. Defined.

Definition order_by_updated_at_desc (table : list LlmSession) : list LlmSession :=
  merge_sort updated_later table.

(** [queryset[start:stop]]: Django refuses a negative bound, and answers with
    the rows from [start] up to and without [stop] otherwise. *)
Definition slice {A} (start stop : Z) (l : list A) : Exception + list A :=
  if (start <? 0) || (stop <? 0)
  then inl (PyError "Negative indexing is not supported.")
  else inr (take (Z.to_nat stop - Z.to_nat start) (drop (Z.to_nat start) l)).

Definition row_of_session (session : LlmSession) : SessionRow.t :=
  {| SessionRow.session_id := session_id session;
     SessionRow.session_name := session_name session;
     SessionRow.session_status := session_status session;
     SessionRow.request_uuid := request_uuid session;
     SessionRow.request_meta := request_meta session;
     SessionRow.assistant_prompt := assistant_prompt session;
     SessionRow.response := response session;
     SessionRow.created_at := created_at session;
     SessionRow.updated_at := updated_at session;
     SessionRow.created_by_email := created_by_email session |}.

(** ** Redis and celery *)

(** Modelled from the spec: [TaskProgress] (ddpui/utils/taskprogress.py) is not
    among the sources.  A progress key is the namespace prefix followed by the
    task identifier, and [add] appends an entry to the log kept under the key. *)
Definition TaskProgress_key (hashprefix task_id : string) : string :=
  (hashprefix ++ task_id)%string.

Definition TaskProgress_add (env : Env) (key : string) (entry : ProgressEntry) : M unit :=
  fun w =>
    if redis_up env
    then (inr tt, with_taskprogress (fun store => <[key := default [] (store !! key) ++ [entry]]> store) w)
    else (inl (PyError "redis.exceptions.ConnectionError"), w).

(** Modelled from the spec: [SingleTaskProgress] (ddpui/utils/singletaskprogress.py)
    is not among the sources.  Constructing it registers the guard of the
    task: the key is kept in redis with the given time to live, in seconds. *)
Definition SingleTaskProgress (env : Env) (task_id : string) (ttl : Z) : M unit :=
  fun w =>
    if redis_up env
    then (inr tt, with_singletaskprogress (fun store => <[task_id := ttl]> store) w)
    else (inl (PyError "redis.exceptions.ConnectionError"), w).

(** [task.delay(...)] and [task.apply_async(...)]: the broker takes the
    message and names the task, or the call raises. *)
Definition apply_async (env : Env) (task : CeleryTask) : M string :=
  fun w =>
    match broker env with
    | Some task_id => (inr task_id, with_celery_queue (fun queue => queue ++ [task]) w)
    | None => (inl (PyError "kombu.exceptions.OperationalError"), w)
    end.

(** [str(err)] *)
Definition exception_text (exc : Exception) : string :=
  match exc with
  | HttpError _ message => message
  | PyError name => name
  end.

(** ** The handlers *)

Section Handlers.

(** [sqlparse.parse], a library function. *)
Variable sqlparse_parse : string -> list Statement.

(** [ddpui.utils.constants.LIMIT_ROWS_TO_SEND_TO_LLM] and
    [TaskProgressHashPrefix.DATAINSIGHTS], constants of modules that are
    not among the sources. *)
Variable LIMIT_ROWS_TO_SEND_TO_LLM : Z.
Variable DATAINSIGHTS : string.

(** *** post_data_insights *)

Definition post_data_insights (env : Env) (request : OrgUser)
    (payload : RequestorColumnSchema) : M string :=
  let* org_warehouse := OrgWarehouse_first (orguser_org request) in
  match org_warehouse with
  | None => raise (HttpError 404 "Please set up your warehouse first")
  | Some org_warehouse =>
      try_except
        (let task_id := uuid4 env in
         run TaskProgress_add env (TaskProgress_key DATAINSIGHTS task_id)
               {| message := "Fetching insights";
                  status := GenerateResult.RESULT_STATUS_FETCHING;
                  results := [] |} in
         run apply_async env
               (poll_for_column_insights (wh_id org_warehouse) payload task_id) in
         ret task_id)
        (fun err => raise (HttpError 500 (exception_text err)))
  end.

(** *** post_warehouse_prompt *)

(** The body of [for token in stmt.tokens], from the state
    [(limit_found, limit)]; the [break] ends the walk of this statement. *)
Fixpoint scan_tokens (toks : list Token) (limit_found : bool) (limit : Limit)
    : Exception + (bool * Limit) :=
  match toks with
  | [] => inr (limit_found, limit)
  | token :: rest =>
      let limit_found :=
        if negb limit_found && is_limit_keyword token then true else limit_found in
      if limit_found && ttype_is Literal_Number_Integer token
      then match py_int (value token) with
           | Some n => inr (limit_found, Fin n)
           | None => inl (PyError "ValueError")
           end
      else scan_tokens rest limit_found limit
  end.

(** [for stmt in stmts] *)
Fixpoint scan_stmts (stmts : list Statement) (limit_found : bool) (limit : Limit)
    : Exception + (bool * Limit) :=
  match stmts with
  | [] => inr (limit_found, limit)
  | stmt :: rest =>
      match scan_tokens (tokens stmt) limit_found limit with
      | inl exc => inl exc
      | inr (limit_found', limit') => scan_stmts rest limit_found' limit'
      end
  end.

(** The [try] block at the end of the handler: the task is sent with the
    given [sql], then the guard of the task is registered for ten minutes. *)
Definition dispatch_summarize (env : Env) (orguser : OrgUser)
    (org_warehouse : OrgWarehouse) (sql_ user_prompt_ : string) : M string :=
  try_except
    (let* task_id :=
       apply_async env
         (summarize_warehouse_results (orguser_id orguser) (wh_id org_warehouse)
            sql_ user_prompt_) in
     run SingleTaskProgress env task_id (60 * 10) in
     ret task_id)
    (fun error => raise (HttpError 400 "failed to summarize warehouse results")).

Definition post_warehouse_prompt (env : Env) (request : OrgUser)
    (payload : AskWarehouseRequest) : M string :=
  let stmts := sqlparse_parse (sql payload) in
  if (1 <? length stmts)%nat then raise (HttpError 400 "Only one query is allowed") else
  match stmts with
  | [] => raise (HttpError 400 "No query provided")
  | stmt0 :: _ =>
      if negb (bool_decide (get_type stmt0 = "SELECT"%string))
      then raise (HttpError 400 "Only SELECT queries are allowed") else
      let* org_warehouse := OrgWarehouse_first (orguser_org request) in
      match org_warehouse with
      | None => raise (HttpError 404 "Please set up your warehouse first")
      | Some org_warehouse =>
          match scan_stmts stmts false Inf with
          | inl exc => raise exc
          | inr (limit_found, limit) =>
              if limit_found && limit_gt limit LIMIT_ROWS_TO_SEND_TO_LLM
              then raise (HttpError 400
                            ("Please make sure the limit in query is less than "
                             ++ py_str LIMIT_ROWS_TO_SEND_TO_LLM))
              else
                let sql_ :=
                  if negb limit_found
                  then (sql payload ++ " LIMIT " ++ py_str LIMIT_ROWS_TO_SEND_TO_LLM)%string
                  else sql payload in
                dispatch_summarize env request org_warehouse sql_ (user_prompt payload)
          end
      end
  end.

(** *** post_save_warehouse_prompt_session *)

(** [not payload.old_session_id]: [None] and the empty string are falsy. *)
Definition falsy (s : option string) : bool :=
  match s with
  | None => true
  | Some text => bool_decide (text = ""%string)
  end.

Definition post_save_warehouse_prompt_session (env : Env) (request : OrgUser)
    (new_session_id : string) (payload : SaveLlmSessionRequest) : M Z :=
  let* new_session := LlmSession_first (Some new_session_id) (orguser_org request) in
  match new_session with
  | None => raise (HttpError 404 "Session not found")
  | Some new_session =>
      if overwrite payload && falsy (old_session_id payload)
      then raise (HttpError 400 "session to overwrite is required") else
      run (if overwrite payload
           then let* old_session :=
                  LlmSession_first (old_session_id payload) (orguser_org request) in
                match old_session with
                | Some old_session => LlmSession_delete old_session
                | None => ret tt
                end
           else ret tt) in
      if bool_decide (session_status new_session = LlmSessionStatus.RUNNING)
      then raise (HttpError 400 "Session is still in progress") else
      run LlmSession_save env (set_session_name (save_session_name payload) new_session) in
      ret 1
  end.

(** *** post_feedback_llm_session *)

Definition post_feedback_llm_session (env : Env) (request : OrgUser)
    (session_id_ : string) (payload : LlmSessionFeedbackRequest) : M Z :=
  let* session := LlmSession_first (Some session_id_) (orguser_org request) in
  match session with
  | None => raise (HttpError 404 "Session not found")
  | Some session =>
      run LlmSession_save env (set_feedback (payload_feedback payload) session) in
      ret 1
  end.

(** *** get_warehouse_llm_analysis_sessions *)

Definition saved_sessions (org_ : Z) (w : World) : list LlmSession :=
  List.filter (is_saved_session org_) (llmsessions w).

Definition get_warehouse_llm_analysis_sessions (request : OrgUser)
    (limit offset : Z) : M SessionsPage :=
  fun w =>
    match slice offset (offset + limit)
            (order_by_updated_at_desc (saved_sessions (orguser_org request) w)) with
    | inl exc => (inl exc, w)
    | inr sessions =>
        let total_count := Z.of_nat (length (saved_sessions (orguser_org request) w)) in
        (inr {| page_limit := limit;
                page_offset := offset;
                total_rows := total_count;
                rows := map row_of_session sessions |}, w)
    end.

End Handlers.

(** ** Sample data *)

Definition tok (t : TokenType) (text : string) : Token :=
  {| ttype := Some t; value := text |}.

Definition group (text : string) : Token :=
  {| ttype := None; value := text |}.

(** The top-level tokens of [SELECT * FROM t]. *)
Definition select_star_from_t : list Token :=
  [tok Keyword_DML "SELECT"; tok Whitespace " "; tok Wildcard "*"; tok Whitespace " ";
   tok Keyword "FROM"; tok Whitespace " "; group "t"].

Definition limit_tokens (t : TokenType) (text : string) : list Token :=
  [tok Whitespace " "; tok Keyword "LIMIT"; tok Whitespace " "; tok t text].

Definition select_stmt (toks : list Token) : Statement :=
  {| tokens := toks; get_type := "SELECT" |}.

(** What [sqlparse.parse] answers on the texts of the examples below. *)
Definition sample_parse (text : string) : list Statement :=
  if bool_decide (text = "SELECT * FROM t"%string)
  then [select_stmt select_star_from_t]
  else if bool_decide (text = "SELECT * FROM t LIMIT 10"%string)
  then [select_stmt (select_star_from_t ++ limit_tokens Literal_Number_Integer "10")]
  else if bool_decide (text = "SELECT * FROM t LIMIT 5000"%string)
  then [select_stmt (select_star_from_t ++ limit_tokens Literal_Number_Integer "5000")]
  else if bool_decide (text = "SELECT * FROM t limit ALL"%string)
  then [select_stmt (select_star_from_t
                       ++ [tok Whitespace " "; tok Keyword "limit"; tok Whitespace " ";
                           tok Keyword "ALL"])]
  else if bool_decide (text = "SELECT 1; SELECT 2"%string)
  then [select_stmt [tok Keyword_DML "SELECT"; tok Whitespace " ";
                     tok Literal_Number_Integer "1"; tok Punctuation ";";
                     tok Whitespace " "];
        select_stmt [tok Keyword_DML "SELECT"; tok Whitespace " ";
                     tok Literal_Number_Integer "2"]]
  else if bool_decide (text = "DROP TABLE t"%string)
  then [{| tokens := [tok Keyword_DDL "DROP"; tok Whitespace " "; tok Keyword "TABLE";
                      tok Whitespace " "; group "t"];
           get_type := "DROP" |}]
  else [].

Definition ask (text : string) : AskWarehouseRequest :=
  {| sql := text; user_prompt := "summarize" |}.

Definition sample_user : OrgUser := {| orguser_id := 3; orguser_org := 7 |}.

Definition sample_warehouse : OrgWarehouse :=
  {| wh_id := 11; wh_org := 7; wtype := "postgres" |}.

Definition sample_column : RequestorColumnSchema :=
  {| db_schema := "public"; db_table := "t"; column_name := "c" |}.

Definition sample_session (key : Z) (sid : string) (org_ : Z)
    (st : LlmSessionStatus.t) (name : option string) (updated : Z) : LlmSession :=
  {| pk := key; session_id := sid; org := org_;
     session_type := LlmAssistantType.LONG_TEXT_SUMMARIZATION;
     session_status := st; session_name := name;
     request_uuid := sid; request_meta := "{}"; assistant_prompt := "";
     response := "[]"; feedback := None;
     created_at := 0; updated_at := updated;
     created_by_email := "user@example.org" |}.

Definition world_of (whs : list OrgWarehouse) (table : list LlmSession) : World :=
  {| orgwarehouses := whs; llmsessions := table; celery_queue := [];
     taskprogress := ∅; singletaskprogress := ∅ |}.

(** Everything answers. *)
Definition env_up : Env :=
  {| uuid4 := "0f8fad5b-d9cb-469f-a165-70867728950e"; now := 100;
     redis_up := true; broker := Some "7c9e6679-7425-40de-944b-e07fc1f90ae7" |}.

(** The broker refuses the task. *)
Definition env_broker_down : Env :=
  {| uuid4 := "0f8fad5b-d9cb-469f-a165-70867728950e"; now := 100;
     redis_up := true; broker := None |}.

Definition running_session : LlmSession :=
  sample_session 1 "new" 7 LlmSessionStatus.RUNNING None 50.

Definition old_session_row : LlmSession :=
  sample_session 2 "old" 7 LlmSessionStatus.COMPLETE (Some "weekly report") 40.

Definition finished_session : LlmSession :=
  sample_session 3 "done" 7 LlmSessionStatus.COMPLETE None 60.

(** The entry the handler writes first. *)
Definition fetching_entry : ProgressEntry :=
  {| message := "Fetching insights";
     status := GenerateResult.RESULT_STATUS_FETCHING;
     results := [] |}.

(** The world once [entry] has been appended to the log kept under [key]. *)
Definition progress_written (key : string) (entry : ProgressEntry) (w : World) : World :=
  with_taskprogress (fun store => <[key := default [] (store !! key) ++ [entry]]> store) w.

(** Three named sessions and two without a name, all of one organisation. *)
Definition listing_world : World :=
  world_of []
    [running_session; old_session_row; finished_session;
     sample_session 4 "fourth" 7 LlmSessionStatus.COMPLETE (Some "april") 70;
     sample_session 5 "fifth" 7 LlmSessionStatus.COMPLETE (Some "may") 55].


(** The table after [s] has been saved over the row that has its key. *)
Definition overwrite_row (env : Env) (s : LlmSession) (table : list LlmSession) : list LlmSession :=
  map (fun row => if pk row =? pk s then touch env s else row) table.

(** The row found by the handlers' lookup. *)
Definition lookup_session (sid : string) (org_ : Z) (w : World) : option LlmSession :=
  first pk (List.filter (LlmSession_matches (Some sid) org_) (llmsessions w)).

Definition lookup_warehouse (org_ : Z) (w : World) : option OrgWarehouse :=
  first wh_id (List.filter (fun wh => bool_decide (wh_org wh = org_)) (orgwarehouses w)).

(** ** Warehouse data *)

(** A value in what a warehouse client hands back.  [PyOther] is an object
    that is none of the others (a date, a decimal). *)
#[warnings="-register-all"] Inductive PyValue :=
| PyNone
| PyBool (b : bool)
| PyInt (n : Z)
| PyStr (s : string)
| PyOther (repr : string)
| PyList (items : list PyValue)
| PyDict (items : list (string * PyValue)).

(** [(isinstance(value, list) or isinstance(value, dict)) and value] *)
Definition is_filled_container (value : PyValue) : bool :=
  match value with
  | PyList (_ :: _) => true
  | PyDict (_ :: _) => true
  | _ => false
  end.

(** The client [dbtautomation_service._get_wclient] builds, and the one
    [WarehouseFactory.connect] builds: the methods the handlers call. *)
Module Client.
Record t := {
  get_tables : string -> Exception + list PyValue;
  get_schemas : Exception + list PyValue;
  get_table_columns : string -> string -> Exception + list PyValue;
  get_table_data : string -> string -> Z -> Z -> option string -> Z -> Exception + list PyValue;
  get_total_rows : string -> string -> Exception + Z;
}.
End Client.

(** Functions of modules and libraries that are not among the sources:
    [dbtautomation_service._get_wclient] and [.json_columnspec],
    [secretsmanager.retrieve_warehouse_credentials], [WarehouseFactory.connect],
    [json.dumps], [helpers.convert_to_standard_types] and [str] on a value. *)
Record Services := {
  _get_wclient : option OrgWarehouse -> Exception + Client.t;
  json_columnspec : OrgWarehouse -> string -> string -> string -> Exception + PyValue;
  retrieve_warehouse_credentials : OrgWarehouse -> Exception + string;
  WarehouseFactory_connect : string -> string -> Exception + Client.t;
  json_dumps : PyValue -> Exception + string;
  convert_to_standard_types : list PyValue -> list PyValue;
  str_of_value : PyValue -> string;
}.

(** [**kwargs]: a key that was not passed is [None]. *)
Record Kwargs := {
  kw_schema_name : option string;
  kw_table_name : option string;
  kw_limit : option Z;
  kw_page : option Z;
  kw_order_by : option (option string);
  kw_order : option Z;
}.

Definition no_kwargs : Kwargs :=
  {| kw_schema_name := None; kw_table_name := None; kw_limit := None;
     kw_page := None; kw_order_by := None; kw_order := None |}.

(** A call that answers or raises, inside a handler. *)
Definition lift {A} (r : Exception + A) : M A := fun w => (r, w).

(** [kwargs["key"]] *)
Definition kwarg {A} (field : option A) : M A :=
  match field with
  | Some a => ret a
  | None => raise (PyError "KeyError")
  end.

(** A loop that maps [f] over [l] and stops at the first element that raises. *)
Fixpoint traverse {A B} (f : A -> Exception + B) (l : list A) : Exception + list B :=
  match l with
  | [] => inr []
  | x :: rest =>
      match f x with
      | inl exc => inl exc
      | inr y =>
          match traverse f rest with
          | inl exc => inl exc
          | inr ys => inr (y :: ys)
          end
      end
  end.

(** The body of [for key, value in element.items()]. *)
Definition dump_item (svc : Services) (item : string * PyValue) : Exception + (string * PyValue) :=
  if is_filled_container (snd item)
  then match json_dumps svc (snd item) with
       | inl exc => inl exc
       | inr text => inr (fst item, PyStr text)
       end
  else inr item.

(** The body of [for element in data]; [.items()] needs a dict. *)
Definition dump_containers (svc : Services) (element : PyValue) : Exception + PyValue :=
  match element with
  | PyDict items =>
      match traverse (dump_item svc) items with
      | inl exc => inl exc
      | inr items' => inr (PyDict items')
      end
  | _ => inl (PyError "AttributeError")
  end.

Definition get_warehouse_data (svc : Services) (request : OrgUser) (data_type : string)
    (kwargs : Kwargs) : M (list PyValue) :=
  let* data :=
    try_except
      (let* org_warehouse := OrgWarehouse_first (orguser_org request) in
       let* client := lift (_get_wclient svc org_warehouse) in
       if bool_decide (data_type = "tables"%string)
       then let* schema_name := kwarg (kw_schema_name kwargs) in
            lift (Client.get_tables client schema_name)
       else if bool_decide (data_type = "schemas"%string)
       then lift (Client.get_schemas client)
       else if bool_decide (data_type = "table_columns"%string)
       then let* schema_name := kwarg (kw_schema_name kwargs) in
            let* table_name := kwarg (kw_table_name kwargs) in
            lift (Client.get_table_columns client schema_name table_name)
       else if bool_decide (data_type = "table_data"%string)
       then let* schema_name := kwarg (kw_schema_name kwargs) in
            let* table_name := kwarg (kw_table_name kwargs) in
            let* limit := kwarg (kw_limit kwargs) in
            let* page := kwarg (kw_page kwargs) in
            let* order_by := kwarg (kw_order_by kwargs) in
            let* order := kwarg (kw_order kwargs) in
            let* data :=
              lift (Client.get_table_data client schema_name table_name limit page order_by order) in
            lift (traverse (dump_containers svc) data)
       else ret [])
      (fun error => raise (HttpError 500 ("Failed to get " ++ data_type))) in
  ret (convert_to_standard_types svc data).

Definition get_table (svc : Services) (request : OrgUser) (schema_name : string)
    : M (list PyValue) :=
  get_warehouse_data svc request "tables"
    {| kw_schema_name := Some schema_name; kw_table_name := None; kw_limit := None;
       kw_page := None; kw_order_by := None; kw_order := None |}.

Definition get_schema (svc : Services) (request : OrgUser) : M (list PyValue) :=
  get_warehouse_data svc request "schemas" no_kwargs.

Definition get_table_columns (svc : Services) (request : OrgUser)
    (schema_name table_name : string) : M (list PyValue) :=
  get_warehouse_data svc request "table_columns"
    {| kw_schema_name := Some schema_name; kw_table_name := Some table_name; kw_limit := None;
       kw_page := None; kw_order_by := None; kw_order := None |}.

(** The query parameters default to [page = 1], [limit = 10],
    [order_by = None] and [order = 1]. *)
Definition get_table_data (svc : Services) (request : OrgUser)
    (schema_name table_name : string) (page limit : Z) (order_by : option string) (order : Z)
    : M (list PyValue) :=
  get_warehouse_data svc request "table_data"
    {| kw_schema_name := Some schema_name; kw_table_name := Some table_name;
       kw_limit := Some limit; kw_page := Some page;
       kw_order_by := Some order_by; kw_order := Some order |}.


(** [all([source_schema, input_name, json_column])]: no string is empty. *)
Definition all_filled (texts : list string) : bool :=
  forallb (fun text => negb (bool_decide (text = ""%string))) texts.

Definition get_json_column_spec (svc : Services) (request : OrgUser)
    (source_schema input_name json_column : string) : M PyValue :=
  let* org_warehouse := OrgWarehouse_first (orguser_org request) in
  match org_warehouse with
  | None => raise (HttpError 404 "Please set up your warehouse first")
  | Some org_warehouse =>
      if negb (all_filled [source_schema; input_name; json_column])
      then raise (HttpError 400 "Missing required parameters")
      else lift (json_columnspec svc org_warehouse source_schema input_name json_column)
  end.

(** [except sqlalchemy.exc.NoSuchTableError] *)
Definition is_NoSuchTableError (exc : Exception) : bool :=
  match exc with
  | PyError name => bool_decide (name = "sqlalchemy.exc.NoSuchTableError"%string)
  | HttpError _ _ => false
  end.

Definition get_warehouse_table_columns_spec (svc : Services) (request : OrgUser)
    (schema_name table_name : string) : M (list PyValue) :=
  let* org_warehouse := OrgWarehouse_first (orguser_org request) in
  match org_warehouse with
  | None => raise (HttpError 404 "Please set up your warehouse first")
  | Some org_warehouse =>
      let* credentials := lift (retrieve_warehouse_credentials svc org_warehouse) in
      try_except
        (let* wclient := lift (WarehouseFactory_connect svc credentials (wtype org_warehouse)) in
         let* cols := lift (Client.get_table_columns wclient schema_name table_name) in
         ret cols)
        (fun err =>
           if is_NoSuchTableError err
           then raise (HttpError 404 "Table not found")
           else raise (HttpError 500 (exception_text err)))
  end.

(** *** get_download_warehouse_data *)

(** How the consumption of a generator ends: it returns, it raises, or the
    consumer has not yet seen the end. *)
Inductive StreamEnd :=
| Finished
| Raised (exc : Exception)
| Running.

(** ["\n"] *)
Definition newline : string := String "010"%char EmptyString.

(** [",".join(data[0].keys()) + "\n"] *)
Definition header_line (first_row : PyValue) : Exception + string :=
  match first_row with
  | PyDict items => inr (String.concat "," (map fst items) ++ newline)%string
  | _ => inl (PyError "AttributeError")
  end.

(** [",".join(map(str, row.values())) + "\n"] *)
Definition row_line (svc : Services) (row : PyValue) : Exception + string :=
  match row with
  | PyDict items =>
      inr (String.concat "," (map (fun item => str_of_value svc (snd item)) items)
           ++ newline)%string
  | _ => inl (PyError "AttributeError")
  end.

(** [for row in data: yield ...]: the lines yielded, and the exception that
    stopped the loop if one did. *)
Fixpoint row_lines (svc : Services) (data : list PyValue) : list string * option Exception :=
  match data with
  | [] => ([], None)
  | row :: rest =>
      match row_line svc row with
      | inl exc => ([], Some exc)
      | inr line => let (lines, stop) := row_lines svc rest in (line :: lines, stop)
      end
  end.

(** The generator [stream_warehouse_data] from the top of its [while True],
    with the loop variables [page] and [header_written]: what it yields
    during at most [fuel] turns of the loop, and how it ends.  Every page is
    read in the world [w], which reading does not change. *)
Fixpoint stream_warehouse_data (svc : Services) (request : OrgUser)
    (schema_name table_name : string) (page_size : Z) (order_by : option string) (order : Z)
    (w : World) (fuel : nat) (page : Z) (header_written : bool) : list string * StreamEnd :=
  match fuel with
  | O => ([], Running)
  | S fuel =>
      match fst (get_warehouse_data svc request "table_data"
                   {| kw_schema_name := Some schema_name; kw_table_name := Some table_name;
                      kw_limit := Some page_size; kw_page := Some page;
                      kw_order_by := Some order_by; kw_order := Some order |} w) with
      | inl exc => ([], Raised exc)
      | inr [] => ([], Finished)
      | inr ((first_row :: _) as data) =>
          match (if header_written then inr []
                 else match header_line first_row with
                      | inl exc => inl exc
                      | inr line => inr [line]
                      end) with
          | inl exc => ([], Raised exc)
          | inr header =>
              match row_lines svc data with
              | (lines, Some exc) => (header ++ lines, Raised exc)
              | (lines, None) =>
                  let (rest, ending) :=
                    stream_warehouse_data svc request schema_name table_name page_size
                      order_by order w fuel (page + 1) true in
                  (header ++ lines ++ rest, ending)
              end
          end
      end
  end.

Record StreamingHttpResponse := {
  streaming_content : nat -> list string * StreamEnd;
  content_type : string;
  content_disposition : string;
}.

Definition get_download_warehouse_data (svc : Services) (request : OrgUser)
    (schema_name table_name : string) : M StreamingHttpResponse :=
  let* org_warehouse := OrgWarehouse_first (orguser_org request) in
  match org_warehouse with
  | None => raise (HttpError 404 "Please set up your warehouse first")
  | Some _ =>
      fun w =>
        (inr {| streaming_content :=
                  fun fuel => stream_warehouse_data svc request schema_name table_name
                                30000 None 1 w fuel 0 false;
                content_type := "application/octet-stream";
                content_disposition :=
                  ("attachment; filename=" ++ schema_name ++ "__" ++ table_name ++ ".csv")%string |},
         w)
  end.

(** ** More sample data *)

(** What [instance.save()] makes of the table. *)
Definition save_rows (env : Env) (s : LlmSession) (table : list LlmSession) : list LlmSession :=
  if existsb (fun row => pk row =? pk s) table
  then map (fun row => if pk row =? pk s then touch env s else row) table
  else table ++ [touch env s].

(** What [instance.delete()] makes of the table. *)
Definition delete_rows (s : LlmSession) (table : list LlmSession) : list LlmSession :=
  List.filter (fun row => negb (pk row =? pk s)) table.

(** A session of another organisation. *)
Definition foreign_session : LlmSession :=
  sample_session 9 "old" 8 LlmSessionStatus.COMPLETE (Some "theirs") 45.

(** The page of rows the generator asks for. *)
Definition fetch_page (svc : Services) (request : OrgUser) (schema_name table_name : string)
    (page_size : Z) (order_by : option string) (order : Z) (w : World) (page : Z)
    : Exception + list PyValue :=
  fst (get_warehouse_data svc request "table_data"
         {| kw_schema_name := Some schema_name; kw_table_name := Some table_name;
            kw_limit := Some page_size; kw_page := Some page;
            kw_order_by := Some order_by; kw_order := Some order |} w).

Definition is_dict (value : PyValue) : bool :=
  match value with
  | PyDict _ => true
  | _ => false
  end.

(** The lines the generator yields for the rows of one page. *)
Definition csv_lines (svc : Services) (data : list PyValue) : list string :=
  fst (row_lines svc data).

(** The header the generator yields for the first page. *)
Definition csv_header (pages : list (list PyValue)) : list string :=
  match pages with
  | (first_row :: _) :: _ =>
      match header_line first_row with
      | inr line => [line]
      | inl _ => []
      end
  | _ => []
  end.



(** A computation that reads the world and leaves it as it is. *)
Definition reads_only {A} (m : M A) : Prop := forall w, snd (m w) = w.

(** A table of three rows on two pages, with a column of lists. *)
Definition sample_row (n : Z) : PyValue :=
  PyDict [("id"%string, PyInt n);
          ("tags"%string, PyList [PyInt n; PyInt (n + 1)]);
          ("meta"%string, PyDict [])].

Definition sample_client : Client.t :=
  {| Client.get_tables := fun _ => inr [PyStr "t"];
     Client.get_schemas := inr [PyStr "public"];
     Client.get_table_columns :=
       fun _ table_name =>
         if bool_decide (table_name = "t"%string)
         then inr [PyDict [("name"%string, PyStr "id"); ("data_type"%string, PyStr "integer")]]
         else inl (PyError "sqlalchemy.exc.NoSuchTableError");
     Client.get_table_data :=
       fun _ _ _ page _ _ =>
         if page =? 0 then inr [sample_row 1; sample_row 2]
         else if page =? 1 then inr [sample_row 3]
         else inr [];
     Client.get_total_rows := fun _ _ => inr 3 |}.

Definition sample_services : Services :=
  {| _get_wclient :=
       fun org_warehouse =>
         match org_warehouse with
         | Some _ => inr sample_client
         | None => inl (PyError "AttributeError")
         end;
     json_columnspec := fun _ _ _ _ => inr (PyList [PyStr "a"; PyStr "b"]);
     retrieve_warehouse_credentials := fun _ => inr "{}"%string;
     WarehouseFactory_connect := fun _ _ => inr sample_client;
     json_dumps :=
       fun value =>
         match value with
         | PyList [PyInt a; PyInt b] => inr ("[" ++ py_str a ++ ", " ++ py_str b ++ "]")%string
         | _ => inl (PyError "TypeError")
         end;
     convert_to_standard_types := fun data => data;
     str_of_value :=
       fun value =>
         match value with
         | PyInt n => py_str n
         | PyStr s => s
         | PyDict [] => "{}"%string
         | _ => "None"%string
         end |}.

(** The same warehouse, whose connection drops after the first page. *)
Definition flaky_client : Client.t :=
  {| Client.get_tables := Client.get_tables sample_client;
     Client.get_schemas := Client.get_schemas sample_client;
     Client.get_table_columns := Client.get_table_columns sample_client;
     Client.get_table_data :=
       fun _ _ _ page _ _ =>
         if page =? 0 then inr [sample_row 1; sample_row 2]
         else inl (PyError "sqlalchemy.exc.OperationalError");
     Client.get_total_rows := Client.get_total_rows sample_client |}.

Definition flaky_services : Services :=
  {| _get_wclient := fun _ => inr flaky_client;
     json_columnspec := json_columnspec sample_services;
     retrieve_warehouse_credentials := retrieve_warehouse_credentials sample_services;
     WarehouseFactory_connect := WarehouseFactory_connect sample_services;
     json_dumps := json_dumps sample_services;
     convert_to_standard_types := convert_to_standard_types sample_services;
     str_of_value := str_of_value sample_services |}.

(** The rows of the sample table as the handler hands them on. *)
Definition dumped_row (n : Z) (tags : string) : PyValue :=
  PyDict [("id"%string, PyInt n); ("tags"%string, PyStr tags); ("meta"%string, PyDict [])].


(** * Properties *)

(** ** The ORM *)

Lemma first_None {A} (key : A -> Z) (table : list A) :
  first key table = None <-> table = [].
Proof.
  destruct table as [|row table]; simpl; [tauto|].
  split; [|discriminate].
  destruct (first key table) as [best|]; [destruct (key best <? key row)|]; discriminate.
Qed.

Lemma first_In {A} (key : A -> Z) (table : list A) (row : A) :
  first key table = Some row -> In row table.
Proof.
  revert row. induction table as [|x table IH]; simpl; intros row H; [discriminate|].
  destruct (first key table) as [best|].
  - destruct (key best <? key x); inversion H; subst; auto.
  - inversion H; auto.
Qed.

Lemma first_filter_Some {A} (key : A -> Z) (p : A -> bool) (table : list A) (row : A) :
  first key (List.filter p table) = Some row -> In row table /\ p row = true.
Proof. intros H. apply first_In in H. apply filter_In in H. exact H. Qed.

Lemma first_filter_None {A} (key : A -> Z) (p : A -> bool) (table : list A) :
  first key (List.filter p table) = None <-> (forall row, In row table -> p row = false).
Proof.
  rewrite first_None. split.
  - intros H row Hin. destruct (p row) eqn:E; [|reflexivity].
    assert (In row (List.filter p table)) as Hf by (apply filter_In; auto).
    rewrite H in Hf. destruct Hf.
  - intros H. induction table as [|x table IH]; simpl; [reflexivity|].
    rewrite (H x) by (left; reflexivity). apply IH. intros row Hin. apply H. right. exact Hin.
Qed.

Lemma existsb_pk_of_In (s : LlmSession) (table : list LlmSession) :
  In s table -> existsb (fun row => pk row =? pk s) table = true.
Proof.
  intros H. apply existsb_exists. exists s. split; [exact H|apply Z.eqb_refl].
Qed.

(** Saving an instance whose row is in the table overwrites that row. *)
Lemma LlmSession_save_existing (env : Env) (s s' : LlmSession) (w : World) :
  In s (llmsessions w) -> pk s' = pk s ->
  LlmSession_save env s' w = (inr tt, with_llmsessions (overwrite_row env s') w).
Proof.
  intros Hin Hpk. unfold LlmSession_save, with_llmsessions, overwrite_row.
  rewrite Hpk, (existsb_pk_of_In s) by exact Hin. reflexivity.
Qed.

Lemma overwrite_row_In (env : Env) (s row : LlmSession) (table : list LlmSession) :
  In row (overwrite_row env s table) ->
  (row = touch env s) \/ (In row table /\ pk row <> pk s).
Proof.
  unfold overwrite_row. rewrite in_map_iff. intros [x [Hx Hin]].
  destruct (pk x =? pk s) eqn:E.
  - left. symmetry. exact Hx.
  - right. subst row. split; [exact Hin|]. apply Z.eqb_neq. exact E.
Qed.

Lemma overwrite_row_other (env : Env) (s row : LlmSession) (table : list LlmSession) :
  In row table -> pk row <> pk s -> In row (overwrite_row env s table).
Proof.
  intros Hin Hne. unfold overwrite_row. apply in_map_iff. exists row.
  apply Z.eqb_neq in Hne. rewrite Hne. auto.
Qed.

(** ** post_feedback_llm_session *)

Lemma post_feedback_llm_session_not_found env request sid payload w :
  lookup_session sid (orguser_org request) w = None ->
  post_feedback_llm_session env request sid payload w
  = (inl (HttpError 404 "Session not found"), w).
Proof.
  intros H. unfold post_feedback_llm_session, bind, LlmSession_first.
  unfold lookup_session in H. rewrite H. reflexivity.
Qed.

Lemma post_feedback_llm_session_found env request sid payload w session :
  lookup_session sid (orguser_org request) w = Some session ->
  post_feedback_llm_session env request sid payload w
  = (inr 1, with_llmsessions
              (overwrite_row env (set_feedback (payload_feedback payload) session)) w).
Proof.
  intros H. unfold post_feedback_llm_session, bind, LlmSession_first.
  unfold lookup_session in H. rewrite H.
  apply first_filter_Some in H as [Hin _].
  rewrite (LlmSession_save_existing env session) by (auto || reflexivity).
  reflexivity.
Qed.

(** C9. [post_feedback_llm_session] fails with 404 "Session not found" and
    leaves the world as it was when the organisation has no LLM session with
    the given identifier.  When it has one, the handler answers success, the
    row of that session now carries the given feedback whatever it carried
    before, and every other row is as it was. *)
Theorem post_feedback_llm_session_spec env request sid payload w :
  ((forall s, In s (llmsessions w) ->
              LlmSession_matches (Some sid) (orguser_org request) s = false) ->
   post_feedback_llm_session env request sid payload w
   = (inl (HttpError 404 "Session not found"), w))
  /\
  (forall session,
     lookup_session sid (orguser_org request) w = Some session ->
     let out := post_feedback_llm_session env request sid payload w in
     fst out = inr 1
     /\ llmsessions (snd out)
        = overwrite_row env (set_feedback (payload_feedback payload) session) (llmsessions w)
     /\ (forall row, In row (llmsessions (snd out)) -> pk row = pk session ->
                     feedback row = Some (payload_feedback payload))
     /\ (forall row, In row (llmsessions w) -> pk row <> pk session ->
                     In row (llmsessions (snd out)))).
Proof.
  split.
  - intros H. apply post_feedback_llm_session_not_found.
    apply first_filter_None. exact H.
  - intros session H out. subst out.
    rewrite (post_feedback_llm_session_found _ _ _ _ _ _ H). simpl.
    repeat split.
    + intros row Hin Hpk. apply overwrite_row_In in Hin as [-> | [_ Hne]].
      * reflexivity.
      * simpl in Hne. contradiction.
    + intros row Hin Hne. apply overwrite_row_other; assumption.
Qed.

Lemma post_feedback_llm_session_spec_witness :
  post_feedback_llm_session env_up sample_user "missing" {| payload_feedback := "useful" |}
    (world_of [] [old_session_row])
  = (inl (HttpError 404 "Session not found"), world_of [] [old_session_row])
  /\ llmsessions
       (snd (post_feedback_llm_session env_up sample_user "old"
               {| payload_feedback := "useful" |} (world_of [] [old_session_row; finished_session])))
     = overwrite_row env_up (set_feedback "useful" old_session_row)
         [old_session_row; finished_session].
Proof.
  split.
  - apply (proj1 (post_feedback_llm_session_spec env_up sample_user "missing"
                    {| payload_feedback := "useful" |} (world_of [] [old_session_row]))).
    intros s [<- | []]. reflexivity.
  - apply (proj2 (post_feedback_llm_session_spec env_up sample_user "old"
                    {| payload_feedback := "useful" |}
                    (world_of [] [old_session_row; finished_session])) old_session_row).
    reflexivity.
Defined.

(** ** post_save_warehouse_prompt_session *)


(** The handler from the point where the target session has been found and
    the request does not ask to overwrite (or names an old session that the
    lookup does not find): only the state of the target decides. *)
Lemma post_save_plain env request sid payload w new_session :
  lookup_session sid (orguser_org request) w = Some new_session ->
  overwrite payload = false ->
  post_save_warehouse_prompt_session env request sid payload w
  = if bool_decide (session_status new_session = LlmSessionStatus.RUNNING)
    then (inl (HttpError 400 "Session is still in progress"), w)
    else (inr 1, with_llmsessions
                   (overwrite_row env (set_session_name (save_session_name payload) new_session)) w).
Proof.
  intros H Hov. unfold post_save_warehouse_prompt_session, bind, LlmSession_first.
  unfold lookup_session in H. rewrite H, Hov. simpl.
  case_bool_decide; [reflexivity|].
  apply first_filter_Some in H as [Hin _].
  unfold ret, with_llmsessions, overwrite_row.
  rewrite (existsb_pk_of_In new_session) by exact Hin. reflexivity.
Qed.




(** With [overwrite] set and an old session that the lookup finds, the old
    row is deleted before the state of the target is looked at. *)
Lemma post_save_running_after_delete env request sid payload w new_session old old_session :
  lookup_session sid (orguser_org request) w = Some new_session ->
  session_status new_session = LlmSessionStatus.RUNNING ->
  overwrite payload = true ->
  old_session_id payload = Some old -> old <> ""%string ->
  lookup_session old (orguser_org request) w = Some old_session ->
  post_save_warehouse_prompt_session env request sid payload w
  = (inl (HttpError 400 "Session is still in progress"),
     with_llmsessions (List.filter (fun row => negb (pk row =? pk old_session))) w).
Proof.
  intros H Hrun Hov Hold Hne Hsome.
  unfold post_save_warehouse_prompt_session, bind, LlmSession_first.
  unfold lookup_session in H, Hsome. rewrite H, Hov, Hold. simpl.
  rewrite bool_decide_eq_false_2 by exact Hne. rewrite Hsome. simpl.
  rewrite bool_decide_eq_true_2 by exact Hrun. reflexivity.
Qed.

Lemma deleted_row_gone (s : LlmSession) (table : list LlmSession) :
  ~ In s (List.filter (fun row => negb (pk row =? pk s)) table).
Proof.
  intros H. apply filter_In in H as [_ H]. rewrite Z.eqb_refl in H. discriminate.
Qed.

(** C1. A save with [overwrite] set, whose target session is RUNNING and
    whose [old_session_id] names a saved session: the handler answers 400
    "Session is still in progress", and the old session is no longer in the
    table. *)
Theorem post_save_running_target_loses_old_session :
  let payload := {| save_session_name := "march"; overwrite := true;
                    old_session_id := Some "old"%string |} in
  let w := world_of [] [running_session; old_session_row] in
  let out := post_save_warehouse_prompt_session env_up sample_user "new" payload w in
  lookup_session "new" (orguser_org sample_user) w = Some running_session
  /\ session_status running_session = LlmSessionStatus.RUNNING
  /\ In old_session_row (llmsessions w)
  /\ respond (fst out) = HttpFail 400 "Session is still in progress"
  /\ llmsessions (snd out) = [running_session]
  /\ ~ In old_session_row (llmsessions (snd out)).
Proof.
  cbv zeta.
  split; [reflexivity|]. split; [reflexivity|].
  split; [right; left; reflexivity|].
  split; [reflexivity|]. split; [reflexivity|].
  rewrite (post_save_running_after_delete env_up sample_user "new" _ _
             running_session "old" old_session_row)
    by (reflexivity || discriminate).
  apply deleted_row_gone.
Qed.

(** ** post_warehouse_prompt: the scan for the limit *)







(** ** post_warehouse_prompt: the handler *)


(** The same request from an organisation without a warehouse. *)
Lemma post_warehouse_prompt_no_warehouse parse MAX env request payload w stmt :
  parse (sql payload) = [stmt] ->
  get_type stmt = "SELECT"%string ->
  lookup_warehouse (orguser_org request) w = None ->
  post_warehouse_prompt parse MAX env request payload w
  = (inl (HttpError 404 "Please set up your warehouse first"), w).
Proof.
  intros Hparse Htype Hwh.
  unfold post_warehouse_prompt, bind, OrgWarehouse_first.
  rewrite Hparse. cbn [length Nat.ltb Nat.leb].
  rewrite bool_decide_eq_true_2 by exact Htype. cbn [negb].
  unfold lookup_warehouse in Hwh. rewrite Hwh. reflexivity.
Qed.


Lemma dispatch_summarize_refused env orguser org_warehouse text prompt w :
  broker env = None ->
  dispatch_summarize env orguser org_warehouse text prompt w
  = (inl (HttpError 400 "failed to summarize warehouse results"), w).
Proof.
  intros H.
  unfold dispatch_summarize, try_except, bind, apply_async, raise. rewrite H. reflexivity.
Qed.


(** C3. When the text parses into two statements or more, the handler fails
    with 400 "Only one query is allowed": no task identifier is answered, and
    the world (the queue, the progress store, the guards) is as it was. *)
Theorem post_warehouse_prompt_several_statements parse MAX env request payload w :
  (2 <= length (parse (sql payload)))%nat ->
  post_warehouse_prompt parse MAX env request payload w
  = (inl (HttpError 400 "Only one query is allowed"), w).
Proof.
  intros H. unfold post_warehouse_prompt.
  destruct (Nat.ltb_spec 1 (length (parse (sql payload)))) as [_ | Hle]; [reflexivity | lia].
Qed.

Lemma post_warehouse_prompt_several_statements_witness :
  let w := world_of [sample_warehouse] [] in
  let out := post_warehouse_prompt sample_parse 1000 env_up sample_user
               (ask "SELECT 1; SELECT 2") w in
  respond (fst out) = HttpFail 400 "Only one query is allowed"
  /\ celery_queue (snd out) = celery_queue w
  /\ taskprogress (snd out) = taskprogress w
  /\ singletaskprogress (snd out) = singletaskprogress w.
Proof.
  cbv zeta.
  rewrite (post_warehouse_prompt_several_statements sample_parse 1000 env_up sample_user
             (ask "SELECT 1; SELECT 2") (world_of [sample_warehouse] []))
    by (vm_compute; lia).
  repeat split.
Defined.










(** ** The statuses of post_warehouse_prompt *)

(** Every refusal of the query itself is a 400. *)
Lemma post_warehouse_prompt_no_statement parse MAX env request payload w :
  parse (sql payload) = [] ->
  post_warehouse_prompt parse MAX env request payload w
  = (inl (HttpError 400 "No query provided"), w).
Proof. intros H. unfold post_warehouse_prompt. rewrite H. reflexivity. Qed.

Lemma post_warehouse_prompt_not_select parse MAX env request payload w stmt :
  parse (sql payload) = [stmt] ->
  get_type stmt <> "SELECT"%string ->
  post_warehouse_prompt parse MAX env request payload w
  = (inl (HttpError 400 "Only SELECT queries are allowed"), w).
Proof.
  intros H Htype. unfold post_warehouse_prompt. rewrite H. cbn [length Nat.ltb Nat.leb].
  rewrite bool_decide_eq_false_2 by exact Htype. reflexivity.
Qed.

(** A broker that refuses the task is answered with a 400 as well, whatever
    the query. *)
Lemma dispatch_summarize_refused_status env orguser org_warehouse text prompt w :
  broker env = None ->
  status_of (respond (fst (dispatch_summarize env orguser org_warehouse text prompt w))) = 400.
Proof. intros H. rewrite dispatch_summarize_refused by exact H. reflexivity. Qed.

(** The sibling handler answers the same failure with a 500. *)
Lemma post_data_insights_refused prefix env request payload w org_warehouse :
  lookup_warehouse (orguser_org request) w = Some org_warehouse ->
  broker env = None ->
  status_of (respond (fst (post_data_insights prefix env request payload w))) = 500.
Proof.
  intros Hwh Hb. unfold post_data_insights, bind, OrgWarehouse_first.
  unfold lookup_warehouse in Hwh. rewrite Hwh.
  unfold try_except, bind, TaskProgress_add, apply_async, raise.
  destruct (redis_up env); [rewrite Hb|]; reflexivity.
Qed.

(** C2. The three kinds of failure of [post_warehouse_prompt] on concrete
    requests: no warehouse is a 404; two statements, no statement, a statement
    that is no SELECT and a limit above the maximum are each a 400; a
    well-formed query that the broker refuses to take is a 400 too, the status
    of an invalid query, where [post_data_insights] answers a 500. *)
Theorem post_warehouse_prompt_enqueue_failure_status :
  let with_wh := world_of [sample_warehouse] [] in
  let status_of_ask env text w :=
    status_of (respond (fst (post_warehouse_prompt sample_parse 1000 env sample_user
                               (ask text) w))) in
  status_of_ask env_up "SELECT * FROM t LIMIT 10" (world_of [] []) = 404
  /\ status_of_ask env_up "SELECT 1; SELECT 2" with_wh = 400
  /\ status_of_ask env_up "" with_wh = 400
  /\ status_of_ask env_up "DROP TABLE t" with_wh = 400
  /\ status_of_ask env_up "SELECT * FROM t LIMIT 5000" with_wh = 400
  /\ status_of_ask env_up "SELECT * FROM t LIMIT 10" with_wh = 200
  /\ status_of_ask env_broker_down "SELECT * FROM t LIMIT 10" with_wh = 400
  /\ status_of (respond (fst (post_data_insights "insights-" env_broker_down sample_user
                                sample_column with_wh))) = 500.
Proof. cbv zeta. repeat split. Qed.

(** ** post_data_insights *)

(** C6, as the code has it.  For an organisation with a warehouse, with
    [key] the progress key of the identifier drawn from [uuid4]: when redis
    takes the write and the broker takes the task, the handler answers the
    drawn identifier, whatever the payload, the log under [key] ends with the
    FETCHING entry with no results (and holds only that entry when the key was
    free), and the task waits on the queue with the same identifier; when
    the broker refuses the task the answer is a 500 and the entry stays
    written, which shows that the write comes first; when redis refuses the
    write the answer is a 500 and nothing is put on the queue. *)
Theorem post_data_insights_submission prefix env request payload w org_warehouse :
  lookup_warehouse (orguser_org request) w = Some org_warehouse ->
  let key := TaskProgress_key prefix (uuid4 env) in
  let out := post_data_insights prefix env request payload w in
  (redis_up env = true ->
   forall celery_id, broker env = Some celery_id ->
     out = (inr (uuid4 env),
            with_celery_queue
              (fun queue => queue ++ [poll_for_column_insights (wh_id org_warehouse) payload
                                        (uuid4 env)])
              (progress_written key fetching_entry w))
     /\ taskprogress (snd out) !! key
        = Some (default [] (taskprogress w !! key) ++ [fetching_entry])
     /\ (taskprogress w !! key = None -> taskprogress (snd out) !! key = Some [fetching_entry])
     /\ celery_queue (snd out)
        = celery_queue w
          ++ [poll_for_column_insights (wh_id org_warehouse) payload (uuid4 env)])
  /\ (redis_up env = true -> broker env = None ->
      exists detail,
        out = (inl (HttpError 500 detail), progress_written key fetching_entry w))
  /\ (redis_up env = false ->
      exists detail, out = (inl (HttpError 500 detail), w)).
Proof.
  intros Hwh key out. subst out key.
  unfold post_data_insights, bind, OrgWarehouse_first.
  unfold lookup_warehouse in Hwh. rewrite Hwh.
  unfold try_except, bind, TaskProgress_add, apply_async, raise, ret.
  split; [|split].
  - intros Hr celery_id Hb. rewrite Hr, Hb. cbn [fst snd].
    split; [reflexivity|]. split; [|split].
    + cbn. apply lookup_insert_eq.
    + intros Hfree. cbn. rewrite lookup_insert_eq, Hfree. reflexivity.
    + reflexivity.
  - intros Hr Hb. rewrite Hr, Hb. eexists. reflexivity.
  - intros Hr. rewrite Hr. eexists. reflexivity.
Qed.

Lemma post_data_insights_submission_witness :
  let out := post_data_insights "insights-" env_up sample_user sample_column
               (world_of [sample_warehouse] []) in
  fst out = inr "0f8fad5b-d9cb-469f-a165-70867728950e"%string
  /\ taskprogress (snd out) !! "insights-0f8fad5b-d9cb-469f-a165-70867728950e"%string
     = Some [fetching_entry]
  /\ celery_queue (snd out)
     = [poll_for_column_insights 11 sample_column "0f8fad5b-d9cb-469f-a165-70867728950e"].
Proof.
  cbv zeta.
  destruct (proj1 (post_data_insights_submission "insights-" env_up sample_user sample_column
                     (world_of [sample_warehouse] []) sample_warehouse eq_refl)
              eq_refl "7c9e6679-7425-40de-944b-e07fc1f90ae7"%string eq_refl)
    as (Hout & _ & Hfree & Hq).
  split; [rewrite Hout; reflexivity|]. split; [|exact Hq].
  apply Hfree. reflexivity.
Defined.

(** C6 as stated does not hold: an organisation with a warehouse is not
    always answered a task identifier; when the broker refuses the task the
    answer is a 500. *)
Lemma post_data_insights_broker_down :
  ~ (forall prefix env request payload w org_warehouse,
       lookup_warehouse (orguser_org request) w = Some org_warehouse ->
       fst (post_data_insights prefix env request payload w) = inr (uuid4 env)).
Proof.
  intros H.
  specialize (H "insights-"%string env_broker_down sample_user sample_column
                (world_of [sample_warehouse] []) sample_warehouse eq_refl).
  vm_compute in H. discriminate H.
Qed.

(** ** get_warehouse_llm_analysis_sessions *)

#[global] Instance updated_later_transitive : Transitive updated_later.
Proof. intros s1 s2 s3. unfold updated_later. lia. Qed.

#[global] Instance updated_later_total : Total updated_later.
Proof. intros s1 s2. unfold updated_later. lia. Qed.

(** A non-negative window is the rows from [offset], at most [limit] of them. *)
Lemma slice_window {A} (offset limit : Z) (l : list A) :
  0 <= offset -> 0 <= offset + limit ->
  slice offset (offset + limit) l = inr (take (Z.to_nat limit) (drop (Z.to_nat offset) l)).
Proof.
  intros Ho Hs. unfold slice.
  destruct (Z.ltb_spec offset 0); [lia|]. destruct (Z.ltb_spec (offset + limit) 0); [lia|].
  cbn [orb]. f_equal. f_equal. lia.
Qed.

Lemma StronglySorted_window {A} (R : relation A) (n m : nat) (l : list A) :
  StronglySorted R l -> StronglySorted R (take n (drop m l)).
Proof.
  intros H.
  rewrite <- (take_drop m l) in H. apply StronglySorted_app_1_r in H.
  rewrite <- (take_drop n (drop m l)) in H. apply StronglySorted_app_1_l in H.
  exact H.
Qed.

Lemma In_window {A} (n m : nat) (l : list A) (x : A) :
  In x (take n (drop m l)) -> In x l.
Proof.
  intros H. apply list_elem_of_In in H. apply list_elem_of_In.
  eapply elem_of_sublist; [exact H|].
  etransitivity; [apply sublist_take | apply sublist_drop].
Qed.

Lemma StronglySorted_rows (sessions : list LlmSession) :
  StronglySorted updated_later sessions ->
  StronglySorted (fun r1 r2 => SessionRow.updated_at r2 <= SessionRow.updated_at r1)
    (map row_of_session sessions).
Proof.
  induction 1 as [|s sessions Hs IH Hall]; simpl; constructor; [exact IH|].
  apply List.Forall_forall. intros r Hr. apply in_map_iff in Hr as [s' [<- Hin]].
  rewrite List.Forall_forall in Hall. apply (Hall s'). exact Hin.
Qed.

Lemma In_sorted_saved (org_ : Z) (w : World) (s : LlmSession) :
  In s (order_by_updated_at_desc (saved_sessions org_ w))
  <-> In s (llmsessions w) /\ is_saved_session org_ s = true.
Proof.
  unfold order_by_updated_at_desc, saved_sessions.
  rewrite <- filter_In. rewrite <- !list_elem_of_In.
  rewrite (merge_sort_Permutation updated_later). reflexivity.
Qed.

Lemma is_saved_session_named (org_ : Z) (s : LlmSession) :
  is_saved_session org_ s = true ->
  org s = org_ /\ session_name s <> None
  /\ session_type s = LlmAssistantType.LONG_TEXT_SUMMARIZATION.
Proof.
  unfold is_saved_session. rewrite !andb_true_iff, !bool_decide_eq_true. tauto.
Qed.

(** C7. For a non-negative window the listing handler answers a page: its
    rows are the organisation's sessions that have a name, the later update
    first, cut to the [limit] rows that follow the first [offset] ones; every
    row has a name; and [total_rows] is the number of all the organisation's
    named sessions, in which neither [limit] nor [offset] takes part. *)
Theorem get_warehouse_llm_analysis_sessions_page request limit offset w :
  0 <= offset -> 0 <= offset + limit ->
  let saved := saved_sessions (orguser_org request) w in
  let window :=
    take (Z.to_nat limit) (drop (Z.to_nat offset) (order_by_updated_at_desc saved)) in
  exists page,
    get_warehouse_llm_analysis_sessions request limit offset w = (inr page, w)
    /\ rows page = map row_of_session window
    /\ order_by_updated_at_desc saved ≡ₚ saved
    /\ StronglySorted updated_later (order_by_updated_at_desc saved)
    /\ (forall s, In s window ->
                  In s (llmsessions w) /\ org s = orguser_org request
                  /\ session_name s <> None)
    /\ Forall (fun r => SessionRow.session_name r <> None) (rows page)
    /\ StronglySorted (fun r1 r2 => SessionRow.updated_at r2 <= SessionRow.updated_at r1) (rows page)
    /\ total_rows page = Z.of_nat (length saved)
    /\ length (rows page) = Nat.min (Z.to_nat limit) (length saved - Z.to_nat offset).
Proof.
  intros Ho Hs saved window.
  assert (forall s, In s window ->
                    In s (llmsessions w) /\ org s = orguser_org request
                    /\ session_name s <> None) as Hwin.
  { intros s Hin. apply In_window in Hin. apply In_sorted_saved in Hin as [Hin Hsaved].
    apply is_saved_session_named in Hsaved. tauto. }
  eexists. split.
  { unfold get_warehouse_llm_analysis_sessions.
    rewrite (slice_window offset limit) by assumption. reflexivity. }
  cbn [rows total_rows].
  split; [reflexivity|].
  split; [apply merge_sort_Permutation|].
  split; [apply (StronglySorted_merge_sort updated_later)|].
  split; [exact Hwin|].
  split.
  { apply List.Forall_forall. intros r Hr. apply in_map_iff in Hr as [s [<- Hin]].
    apply Hwin in Hin. simpl. tauto. }
  split.
  { apply StronglySorted_rows, StronglySorted_window.
    apply (StronglySorted_merge_sort updated_later). }
  split; [reflexivity|].
  rewrite length_map. subst window. rewrite length_take, length_drop.
  unfold order_by_updated_at_desc.
  rewrite (Permutation_length (merge_sort_Permutation updated_later saved)). reflexivity.
Qed.

Lemma get_warehouse_llm_analysis_sessions_page_witness :
  exists page,
    get_warehouse_llm_analysis_sessions sample_user 10 0 listing_world
    = (inr page, listing_world)
    /\ length (rows page) = 3%nat
    /\ total_rows page = 3
    /\ map SessionRow.updated_at (rows page) = [70; 55; 40].
Proof.
  destruct (get_warehouse_llm_analysis_sessions_page sample_user 10 0 listing_world)
    as (page & Heq & Hrows & _ & _ & _ & _ & _ & Htotal & Hlen); [lia | lia |].
  exists page. split; [exact Heq|].
  split; [rewrite Hlen; reflexivity|].
  split; [rewrite Htotal; reflexivity|].
  rewrite Hrows. reflexivity.
Defined.

(** * Further properties of the handlers *)

(** ** The session table *)

Lemma pk_unique (table : list LlmSession) (a b : LlmSession) :
  NoDup (map pk table) -> In a table -> In b table -> pk a = pk b -> a = b.
Proof.
  induction table as [|x table IH]; simpl; intros Hnd Ha Hb Hpk; [destruct Ha|].
  apply NoDup_cons in Hnd as [Hx Hnd].
  destruct Ha as [-> | Ha], Hb as [-> | Hb]; auto.
  - exfalso. apply Hx. apply list_elem_of_In. rewrite Hpk. apply in_map. exact Hb.
  - exfalso. apply Hx. apply list_elem_of_In. rewrite <- Hpk. apply in_map. exact Ha.
Qed.

Lemma delete_rows_In (s row : LlmSession) (table : list LlmSession) :
  In row (delete_rows s table) <-> In row table /\ pk row <> pk s.
Proof.
  unfold delete_rows. rewrite filter_In, negb_true_iff, Z.eqb_neq. reflexivity.
Qed.

Lemma delete_rows_NoDup (s : LlmSession) (table : list LlmSession) :
  NoDup (map pk table) -> NoDup (map pk (delete_rows s table)).
Proof.
  unfold delete_rows. induction table as [|x table IH]; simpl; intros Hnd; [exact Hnd|].
  apply NoDup_cons in Hnd as [Hx Hnd].
  destruct (negb (pk x =? pk s)); simpl; [|auto].
  apply NoDup_cons. split; [|auto].
  intros Hin. apply Hx. apply list_elem_of_In in Hin. apply list_elem_of_In.
  apply in_map_iff in Hin as [y [Hy Hin]]. apply filter_In in Hin as [Hin _].
  rewrite <- Hy. apply in_map. exact Hin.
Qed.

Lemma save_rows_pks_existing (env : Env) (s : LlmSession) (table : list LlmSession) :
  map pk (map (fun row => if pk row =? pk s then touch env s else row) table) = map pk table.
Proof.
  rewrite map_map. apply map_ext. intros row.
  destruct (pk row =? pk s) eqn:E; [|reflexivity].
  apply Z.eqb_eq in E. simpl. symmetry. exact E.
Qed.

Lemma save_rows_NoDup (env : Env) (s : LlmSession) (table : list LlmSession) :
  NoDup (map pk table) -> NoDup (map pk (save_rows env s table)).
Proof.
  intros Hnd. unfold save_rows.
  destruct (existsb (fun row => pk row =? pk s) table) eqn:E.
  - rewrite save_rows_pks_existing. exact Hnd.
  - rewrite map_app. simpl. apply NoDup_app. split; [exact Hnd|]. split.
    + intros k Hk Hk'. apply list_elem_of_In in Hk, Hk'. destruct Hk' as [<- | []].
      apply in_map_iff in Hk as [row [Hrow Hin]].
      assert (existsb (fun row => pk row =? pk s) table = true) as Ht.
      { apply existsb_exists. exists row. split; [exact Hin|]. apply Z.eqb_eq. exact Hrow. }
      rewrite Ht in E. discriminate.
    + apply NoDup_singleton.
Qed.

(** A row whose key is not the saved one is the same before and after. *)
Lemma save_rows_In_other (env : Env) (s row : LlmSession) (table : list LlmSession) :
  pk row <> pk s ->
  (In row (save_rows env s table) <-> In row table).
Proof.
  intros Hne. unfold save_rows.
  destruct (existsb (fun r => pk r =? pk s) table).
  - rewrite in_map_iff. split.
    + intros [r [Hr Hin]]. destruct (pk r =? pk s) eqn:E.
      * subst row. simpl in Hne. contradiction.
      * subst row. exact Hin.
    + intros Hin. exists row. apply Z.eqb_neq in Hne. rewrite Hne. auto.
  - rewrite in_app_iff. simpl. split; [|auto].
    intros [Hin | [<- | []]]; [exact Hin|]. simpl in Hne. contradiction.
Qed.

(** What the save handler makes of the table: nothing, or a delete of the
    old session, followed or not by the save of the renamed target. *)
Lemma post_save_table env request sid payload w :
  let out := post_save_warehouse_prompt_session env request sid payload w in
  orgwarehouses (snd out) = orgwarehouses w
  /\ celery_queue (snd out) = celery_queue w
  /\ taskprogress (snd out) = taskprogress w
  /\ singletaskprogress (snd out) = singletaskprogress w
  /\ (llmsessions (snd out) = llmsessions w
      \/ exists new_session deleted,
           lookup_session sid (orguser_org request) w = Some new_session
           /\ (deleted = llmsessions w
               \/ exists old old_session,
                    old_session_id payload = Some old
                    /\ lookup_session old (orguser_org request) w = Some old_session
                    /\ deleted = delete_rows old_session (llmsessions w))
           /\ (llmsessions (snd out) = deleted
               \/ llmsessions (snd out)
                  = save_rows env (set_session_name (save_session_name payload) new_session)
                      deleted)).
Proof.
  unfold post_save_warehouse_prompt_session, bind, LlmSession_first, lookup_session.
  destruct (first pk (List.filter (LlmSession_matches (Some sid) (orguser_org request))
                        (llmsessions w))) as [new_session|] eqn:Hnew;
    [|cbn; repeat split; left; reflexivity].
  destruct (overwrite payload); cbn [andb].
  - destruct (falsy (old_session_id payload)) eqn:Hf;
      [cbn; repeat split; left; reflexivity|].
    destruct (old_session_id payload) as [old|] eqn:Hold; [|discriminate Hf].
    destruct (first pk (List.filter (LlmSession_matches (Some old) (orguser_org request))
                          (llmsessions w))) as [old_session|] eqn:Hfound.
    + cbn. case_bool_decide; cbn; repeat split; right;
        exists new_session, (delete_rows old_session (llmsessions w));
        (split; [reflexivity|]);
        (split; [right; exists old, old_session; auto|]); [left | right]; reflexivity.
    + cbn. case_bool_decide; cbn; repeat split; [left; reflexivity|].
      right. exists new_session, (llmsessions w).
      split; [reflexivity|]. split; [left; reflexivity|]. right. reflexivity.
  - cbn. case_bool_decide; cbn; repeat split; [left; reflexivity|].
    right. exists new_session, (llmsessions w).
    split; [reflexivity|]. split; [left; reflexivity|]. right. reflexivity.
Qed.

Lemma LlmSession_matches_org (sid : option string) (org_ : Z) (s : LlmSession) :
  LlmSession_matches sid org_ s = true ->
  Some (session_id s) = sid /\ org s = org_
  /\ session_type s = LlmAssistantType.LONG_TEXT_SUMMARIZATION.
Proof.
  unfold LlmSession_matches. rewrite !andb_true_iff, !bool_decide_eq_true. tauto.
Qed.

Lemma lookup_session_found (sid : string) (org_ : Z) (w : World) (s : LlmSession) :
  lookup_session sid org_ w = Some s ->
  In s (llmsessions w) /\ session_id s = sid /\ org s = org_
  /\ session_type s = LlmAssistantType.LONG_TEXT_SUMMARIZATION.
Proof.
  intros H. apply first_filter_Some in H as [Hin Hm].
  apply LlmSession_matches_org in Hm as (Hid & Horg & Hty).
  inversion Hid. auto.
Qed.

Lemma save_rows_In_foreign (env : Env) (s row : LlmSession) (table : list LlmSession) :
  org row <> org s -> In row (save_rows env s table) -> In row table.
Proof.
  intros Hne. unfold save_rows.
  destruct (existsb (fun r => pk r =? pk s) table).
  - rewrite in_map_iff. intros [r [Hr Hin]]. destruct (pk r =? pk s).
    + subst row. simpl in Hne. contradiction.
    + subst row. exact Hin.
  - rewrite in_app_iff. simpl. intros [Hin | [<- | []]]; [exact Hin|].
    simpl in Hne. contradiction.
Qed.

(** X1. When the lookup does not find the target session the save handler
    answers 404 "Session not found" and the world is as it was, whatever the
    payload: a session named by [old_session_id] is not deleted. *)
Theorem post_save_target_not_found env request sid payload w :
  (forall s, In s (llmsessions w) ->
             LlmSession_matches (Some sid) (orguser_org request) s = false) ->
  post_save_warehouse_prompt_session env request sid payload w
  = (inl (HttpError 404 "Session not found"), w).
Proof.
  intros H. apply (first_filter_None pk) in H.
  unfold post_save_warehouse_prompt_session, bind, LlmSession_first.
  rewrite H. reflexivity.
Qed.

Lemma post_save_target_not_found_witness :
  post_save_warehouse_prompt_session env_up sample_user "missing"
    {| save_session_name := "march"; overwrite := true; old_session_id := Some "old"%string |}
    (world_of [] [old_session_row; finished_session])
  = (inl (HttpError 404 "Session not found"), world_of [] [old_session_row; finished_session]).
Proof.
  apply (post_save_target_not_found env_up sample_user "missing").
  intros s [<- | [<- | []]]; reflexivity.
Defined.

(** X2. With primary keys that are unique, the save handler leaves the rows
    of every other organisation alone: such a row is in the table after the
    request exactly when it was there before, also when its session
    identifier is the one the request names as old session. *)
Theorem post_save_other_organisations env request sid payload w row :
  NoDup (map pk (llmsessions w)) ->
  org row <> orguser_org request ->
  In row (llmsessions (snd (post_save_warehouse_prompt_session env request sid payload w)))
  <-> In row (llmsessions w).
Proof.
  intros Hnd Hforeign.
  destruct (post_save_table env request sid payload w) as (_ & _ & _ & _ & Htable).
  destruct Htable as [-> | (new_session & deleted & Hnew & Hdel & Hfinal)]; [reflexivity|].
  apply lookup_session_found in Hnew as (Hnew_in & _ & Hnew_org & _).
  assert (In row deleted <-> In row (llmsessions w)) as Hdeleted.
  { destruct Hdel as [-> | (old & old_session & _ & Hold & ->)]; [reflexivity|].
    apply lookup_session_found in Hold as (Hold_in & _ & Hold_org & _).
    rewrite delete_rows_In. split; [tauto|]. intros Hin. split; [exact Hin|].
    intros Hpk. apply Hforeign.
    rewrite (pk_unique _ row old_session Hnd Hin Hold_in Hpk). exact Hold_org. }
  destruct Hfinal as [-> | ->]; [exact Hdeleted|].
  rewrite <- Hdeleted. split.
  - apply save_rows_In_foreign. simpl. congruence.
  - intros Hin. apply save_rows_In_other; [|exact Hin]. simpl.
    intros Hpk. apply Hforeign.
    rewrite (pk_unique _ row new_session Hnd (proj1 Hdeleted Hin) Hnew_in Hpk).
    exact Hnew_org.
Qed.

Lemma post_save_other_organisations_witness :
  In foreign_session
    (llmsessions
       (snd (post_save_warehouse_prompt_session env_up sample_user "done"
               {| save_session_name := "march"; overwrite := true;
                  old_session_id := Some "old"%string |}
               (world_of [] [old_session_row; finished_session; foreign_session])))).
Proof.
  apply (post_save_other_organisations env_up sample_user "done"
           {| save_session_name := "march"; overwrite := true;
              old_session_id := Some "old"%string |}
           (world_of [] [old_session_row; finished_session; foreign_session])
           foreign_session).
  - apply (bool_decide_unpack _). vm_compute. exact I.
  - simpl. lia.
  - simpl. auto.
Defined.

(** X3. The feedback handler leaves the rows of every other organisation
    alone, with primary keys that are unique. *)
Theorem post_feedback_other_organisations env request sid payload w row :
  NoDup (map pk (llmsessions w)) ->
  org row <> orguser_org request ->
  In row (llmsessions (snd (post_feedback_llm_session env request sid payload w)))
  <-> In row (llmsessions w).
Proof.
  intros Hnd Hforeign.
  destruct (lookup_session sid (orguser_org request) w) as [session|] eqn:Hlook.
  - rewrite (post_feedback_llm_session_found _ _ _ _ _ _ Hlook). simpl.
    apply lookup_session_found in Hlook as (Hin & _ & Horg & _). split.
    + intros H. apply overwrite_row_In in H as [-> | [H _]]; [|exact H].
      simpl in Hforeign. contradiction.
    + intros H. apply overwrite_row_other; [exact H|]. simpl.
      intros Hpk. apply Hforeign.
      rewrite (pk_unique _ row session Hnd H Hin Hpk). exact Horg.
  - rewrite (post_feedback_llm_session_not_found _ _ _ _ _ Hlook). reflexivity.
Qed.

Lemma post_feedback_other_organisations_witness :
  In foreign_session
    (llmsessions
       (snd (post_feedback_llm_session env_up sample_user "old"
               {| payload_feedback := "useful" |}
               (world_of [] [old_session_row; foreign_session])))).
Proof.
  apply (post_feedback_other_organisations env_up sample_user "old"
           {| payload_feedback := "useful" |}
           (world_of [] [old_session_row; foreign_session]) foreign_session).
  - apply (bool_decide_unpack _). vm_compute. exact I.
  - simpl. lia.
  - simpl. auto.
Defined.

(** X4. Both handlers that write the session table keep its primary keys
    unique. *)
Theorem session_handlers_keep_keys_unique env request sid w :
  NoDup (map pk (llmsessions w)) ->
  (forall payload,
     NoDup (map pk (llmsessions
                      (snd (post_save_warehouse_prompt_session env request sid payload w)))))
  /\ (forall payload,
        NoDup (map pk (llmsessions
                         (snd (post_feedback_llm_session env request sid payload w))))).
Proof.
  intros Hnd. split; intros payload.
  - destruct (post_save_table env request sid payload w) as (_ & _ & _ & _ & Htable).
    destruct Htable as [-> | (new_session & deleted & _ & Hdel & Hfinal)]; [exact Hnd|].
    assert (NoDup (map pk deleted)) as Hdeleted.
    { destruct Hdel as [-> | (old & old_session & _ & _ & ->)];
        [exact Hnd | apply delete_rows_NoDup; exact Hnd]. }
    destruct Hfinal as [-> | ->]; [exact Hdeleted | apply save_rows_NoDup; exact Hdeleted].
  - destruct (lookup_session sid (orguser_org request) w) as [session|] eqn:Hlook.
    + rewrite (post_feedback_llm_session_found _ _ _ _ _ _ Hlook). simpl.
      unfold overwrite_row. rewrite save_rows_pks_existing. exact Hnd.
    + rewrite (post_feedback_llm_session_not_found _ _ _ _ _ Hlook). exact Hnd.
Qed.

Lemma session_handlers_keep_keys_unique_witness :
  NoDup (map pk (llmsessions
                   (snd (post_save_warehouse_prompt_session env_up sample_user "old"
                           {| save_session_name := "march"; overwrite := true;
                              old_session_id := Some "old"%string |}
                           (world_of [] [old_session_row; finished_session]))))).
Proof.
  apply (proj1 (session_handlers_keep_keys_unique env_up sample_user "old"
                  (world_of [] [old_session_row; finished_session])
                  ltac:(apply (bool_decide_unpack _); vm_compute; exact I))).
Defined.

(** ** Saving and listing *)

(** A save that answers success has found its target, not running, and has
    saved it, renamed, into what the delete left of the table. *)
Lemma post_save_success env request sid payload w r :
  fst (post_save_warehouse_prompt_session env request sid payload w) = inr r ->
  exists new_session deleted,
    lookup_session sid (orguser_org request) w = Some new_session
    /\ session_status new_session <> LlmSessionStatus.RUNNING
    /\ (overwrite payload = false -> deleted = llmsessions w)
    /\ llmsessions (snd (post_save_warehouse_prompt_session env request sid payload w))
       = save_rows env (set_session_name (save_session_name payload) new_session) deleted.
Proof.
  unfold post_save_warehouse_prompt_session, bind, LlmSession_first, lookup_session.
  destruct (first pk (List.filter (LlmSession_matches (Some sid) (orguser_org request))
                        (llmsessions w))) as [new_session|] eqn:Hnew; [|discriminate].
  destruct (overwrite payload); cbn [andb].
  - destruct (falsy (old_session_id payload)) eqn:Hf; [discriminate|].
    destruct (first pk (List.filter (LlmSession_matches (old_session_id payload)
                                       (orguser_org request)) (llmsessions w)))
      as [old_session|]; cbn; case_bool_decide; cbn; try discriminate; intros _.
    + exists new_session, (delete_rows old_session (llmsessions w)).
      repeat split; [assumption | discriminate].
    + exists new_session, (llmsessions w). repeat split; assumption.
  - cbn. case_bool_decide; cbn; [discriminate|]. intros _.
    exists new_session, (llmsessions w). repeat split; assumption.
Qed.

Lemma save_rows_In_saved (env : Env) (s : LlmSession) (table : list LlmSession) :
  In (touch env s) (save_rows env s table).
Proof.
  unfold save_rows. destruct (existsb (fun row => pk row =? pk s) table) eqn:E.
  - apply existsb_exists in E as [row [Hin Hpk]].
    apply in_map_iff. exists row. rewrite Hpk. auto.
  - apply in_app_iff. right. left. reflexivity.
Qed.

Lemma take_all {A} (n : nat) (l : list A) : (length l <= n)%nat -> take n l = l.
Proof. intros H. apply take_ge. exact H. Qed.

(** X5. A save that answers success makes the session listable: a listing
    of the organisation whose window covers all its named sessions holds a
    row with the identifier of the target and the name of the request. *)
Theorem post_save_session_is_listed env request sid payload w r limit :
  fst (post_save_warehouse_prompt_session env request sid payload w) = inr r ->
  let w' := snd (post_save_warehouse_prompt_session env request sid payload w) in
  Z.of_nat (length (saved_sessions (orguser_org request) w')) <= limit ->
  exists page row,
    get_warehouse_llm_analysis_sessions request limit 0 w' = (inr page, w')
    /\ In row (rows page)
    /\ SessionRow.session_id row = sid
    /\ SessionRow.session_name row = Some (save_session_name payload).
Proof.
  intros Hok w' Hlimit.
  destruct (post_save_success _ _ _ _ _ _ Hok) as (new_session & deleted & Hnew & _ & _ & Htable).
  apply lookup_session_found in Hnew as (_ & Hsid & Horg & Htype).
  set (saved := touch env (set_session_name (save_session_name payload) new_session)).
  assert (In saved (order_by_updated_at_desc (saved_sessions (orguser_org request) w'))) as Hin.
  { apply In_sorted_saved. split.
    - subst w'. rewrite Htable. apply save_rows_In_saved.
    - unfold is_saved_session. subst saved. simpl.
      rewrite !bool_decide_eq_true_2 by (assumption || discriminate). reflexivity. }
  eexists. exists (row_of_session saved). split.
  { unfold get_warehouse_llm_analysis_sessions.
    rewrite (slice_window 0 limit) by lia. reflexivity. }
  cbn [rows]. split; [|split; [exact Hsid | reflexivity]].
  apply in_map. rewrite drop_0, take_all; [exact Hin|].
  unfold order_by_updated_at_desc.
  rewrite (Permutation_length (merge_sort_Permutation updated_later _)). lia.
Qed.

Lemma post_save_session_is_listed_witness :
  exists page row,
    get_warehouse_llm_analysis_sessions sample_user 10 0
      (snd (post_save_warehouse_prompt_session env_up sample_user "done"
              {| save_session_name := "march"; overwrite := false; old_session_id := None |}
              listing_world))
    = (inr page,
       snd (post_save_warehouse_prompt_session env_up sample_user "done"
              {| save_session_name := "march"; overwrite := false; old_session_id := None |}
              listing_world))
    /\ In row (rows page)
    /\ SessionRow.session_id row = "done"%string
    /\ SessionRow.session_name row = Some "march"%string.
Proof.
  apply (post_save_session_is_listed env_up sample_user "done"
           {| save_session_name := "march"; overwrite := false; old_session_id := None |}
           listing_world 1 10).
  - reflexivity.
  - vm_compute. discriminate.
Defined.

Lemma overwrite_row_count (env : Env) (p : LlmSession -> bool) (s s' : LlmSession)
    (table : list LlmSession) :
  NoDup (map pk table) -> In s table -> pk s' = pk s -> p (touch env s') = true ->
  length (List.filter p (overwrite_row env s' table))
  = if p s then length (List.filter p table) else S (length (List.filter p table)).
Proof.
  intros Hnd Hin Hpk Hp'.
  assert (forall t, (forall row, In row t -> pk row <> pk s) ->
                    overwrite_row env s' t = t) as Hsame.
  { intros t Ht. unfold overwrite_row. rewrite <- (map_id t) at 2. apply map_ext_in.
    intros row Hrow. rewrite Hpk. specialize (Ht row Hrow).
    apply Z.eqb_neq in Ht. rewrite Ht. reflexivity. }
  induction table as [|x table IH]; [destruct Hin|].
  simpl in Hnd. apply NoDup_cons in Hnd as [Hx Hnd].
  destruct Hin as [-> | Hin].
  - change (overwrite_row env s' (s :: table))
      with ((if pk s =? pk s' then touch env s' else s) :: overwrite_row env s' table).
    rewrite Hpk, Z.eqb_refl. rewrite Hsame.
    + simpl. rewrite Hp'. destruct (p s); reflexivity.
    + intros row Hrow Heq. apply Hx. apply list_elem_of_In. rewrite <- Heq.
      apply in_map. exact Hrow.
  - change (overwrite_row env s' (x :: table))
      with ((if pk x =? pk s' then touch env s' else x) :: overwrite_row env s' table).
    assert (pk x <> pk s') as Hne.
    { rewrite Hpk. intros Heq. apply Hx. apply list_elem_of_In. rewrite Heq.
      apply in_map. exact Hin. }
    apply Z.eqb_neq in Hne. rewrite Hne. simpl.
    specialize (IH Hnd Hin). destruct (p x); simpl; rewrite IH; destruct (p s); reflexivity.
Qed.

(** X6. With primary keys that are unique, a save without [overwrite] that
    answers success changes the number of listed sessions of the organisation
    by what the target was: one more when it had no name, the same number
    when it is renamed. *)
Theorem post_save_total_rows env request sid payload w r new_session :
  NoDup (map pk (llmsessions w)) ->
  overwrite payload = false ->
  lookup_session sid (orguser_org request) w = Some new_session ->
  fst (post_save_warehouse_prompt_session env request sid payload w) = inr r ->
  length (saved_sessions (orguser_org request)
            (snd (post_save_warehouse_prompt_session env request sid payload w)))
  = match session_name new_session with
    | None => S (length (saved_sessions (orguser_org request) w))
    | Some _ => length (saved_sessions (orguser_org request) w)
    end.
Proof.
  intros Hnd Hov Hnew Hok.
  rewrite (post_save_plain env request sid payload w new_session Hnew Hov) in *.
  case_bool_decide; [discriminate Hok|]. cbn [snd]. unfold saved_sessions. simpl.
  apply lookup_session_found in Hnew as (Hin & _ & Horg & Htype).
  rewrite (overwrite_row_count env _ new_session) by
    (auto; unfold is_saved_session; simpl;
     rewrite !bool_decide_eq_true_2 by (assumption || discriminate); reflexivity).
  unfold is_saved_session.
  rewrite (bool_decide_eq_true_2 _ Horg), (bool_decide_eq_true_2 _ Htype).
  destruct (session_name new_session); reflexivity.
Qed.

Lemma post_save_total_rows_witness :
  length (saved_sessions (orguser_org sample_user)
            (snd (post_save_warehouse_prompt_session env_up sample_user "done"
                    {| save_session_name := "march"; overwrite := false;
                       old_session_id := None |} listing_world)))
  = 4%nat.
Proof.
  rewrite (post_save_total_rows env_up sample_user "done"
             {| save_session_name := "march"; overwrite := false; old_session_id := None |}
             listing_world 1 finished_session
             ltac:(apply (bool_decide_unpack _); vm_compute; exact I)
             eq_refl eq_refl eq_refl).
  reflexivity.
Defined.

(** ** Feedback twice *)

Lemma first_map {A} (key : A -> Z) (f : A -> A) (table : list A) :
  (forall row, key (f row) = key row) ->
  first key (map f table) = option_map f (first key table).
Proof.
  intros Hkey. induction table as [|x table IH]; simpl; [reflexivity|].
  rewrite IH. destruct (first key table) as [best|]; simpl; [|reflexivity].
  rewrite !Hkey. destruct (key best <? key x); reflexivity.
Qed.

Lemma filter_map_same {A} (p : A -> bool) (f : A -> A) (table : list A) :
  (forall row, In row table -> p (f row) = p row) ->
  List.filter p (map f table) = map f (List.filter p table).
Proof.
  induction table as [|x table IH]; simpl; intros H; [reflexivity|].
  rewrite (H x) by (left; reflexivity).
  rewrite IH by (intros row Hrow; apply H; right; exact Hrow).
  destruct (p x); reflexivity.
Qed.

(** After a feedback the lookup finds the row the handler wrote. *)
Lemma lookup_session_after_feedback env sid org_ text w session :
  NoDup (map pk (llmsessions w)) ->
  lookup_session sid org_ w = Some session ->
  lookup_session sid org_
    (with_llmsessions (overwrite_row env (set_feedback text session)) w)
  = Some (touch env (set_feedback text session)).
Proof.
  intros Hnd Hlook. pose proof (lookup_session_found _ _ _ _ Hlook) as (Hin & Hsid & Horg & Hty).
  unfold lookup_session in *. cbn [llmsessions with_llmsessions]. unfold overwrite_row.
  rewrite filter_map_same.
  - rewrite first_map.
    + rewrite Hlook. simpl. rewrite Z.eqb_refl. reflexivity.
    + intros row. destruct (pk row =? pk (set_feedback text session)) eqn:E; [|reflexivity].
      apply Z.eqb_eq in E. simpl in *. symmetry. exact E.
  - intros row Hrow. destruct (pk row =? pk (set_feedback text session)) eqn:E; [|reflexivity].
    apply Z.eqb_eq in E. simpl in E.
    rewrite (pk_unique _ row session Hnd Hrow Hin E). reflexivity.
Qed.

Lemma overwrite_row_twice env (s1 s2 : LlmSession) (table : list LlmSession) :
  pk s1 = pk s2 ->
  overwrite_row env s2 (overwrite_row env s1 table) = overwrite_row env s2 table.
Proof.
  intros Hpk. unfold overwrite_row. rewrite map_map. apply map_ext. intros row.
  rewrite Hpk. destruct (pk row =? pk s2) eqn:E; [|rewrite E; reflexivity].
  simpl. rewrite Hpk, Z.eqb_refl. reflexivity.
Qed.

(** X7. Feedback keeps no history: with primary keys that are unique, a
    second feedback on a session gives the answer and the world that it gives
    when the first one was never sent. *)
Theorem post_feedback_keeps_no_history env request sid first_payload payload w session :
  NoDup (map pk (llmsessions w)) ->
  lookup_session sid (orguser_org request) w = Some session ->
  post_feedback_llm_session env request sid payload
    (snd (post_feedback_llm_session env request sid first_payload w))
  = post_feedback_llm_session env request sid payload w.
Proof.
  intros Hnd Hlook.
  rewrite (post_feedback_llm_session_found env request sid first_payload w session Hlook).
  cbn [snd].
  rewrite (post_feedback_llm_session_found env request sid payload _ _
             (lookup_session_after_feedback env sid _ _ w session Hnd Hlook)).
  rewrite (post_feedback_llm_session_found env request sid payload w session Hlook).
  f_equal. unfold with_llmsessions. cbn [llmsessions orgwarehouses celery_queue taskprogress
                                          singletaskprogress].
  f_equal. rewrite overwrite_row_twice by reflexivity. reflexivity.
Qed.

Lemma post_feedback_keeps_no_history_witness :
  post_feedback_llm_session env_up sample_user "old" {| payload_feedback := "too long" |}
    (snd (post_feedback_llm_session env_up sample_user "old"
            {| payload_feedback := "useful" |} (world_of [] [old_session_row; finished_session])))
  = post_feedback_llm_session env_up sample_user "old" {| payload_feedback := "too long" |}
      (world_of [] [old_session_row; finished_session]).
Proof.
  apply (post_feedback_keeps_no_history env_up sample_user "old"
           {| payload_feedback := "useful" |} {| payload_feedback := "too long" |}
           (world_of [] [old_session_row; finished_session]) old_session_row).
  - apply (bool_decide_unpack _). vm_compute. exact I.
  - reflexivity.
Defined.

(** ** The listing window *)



(** X9. The listing at the edges of its window.  A negative [offset], or
    a negative [offset + limit], is answered 500 "something went wrong".  A
    window that starts at or after the last named session, or whose [limit] is
    negative, is answered with no rows and the full [total_rows].  In no case
    is the world changed. *)
Theorem listing_window_edges request limit offset w :
  let out := get_warehouse_llm_analysis_sessions request limit offset w in
  let total := Z.of_nat (length (saved_sessions (orguser_org request) w)) in
  snd out = w
  /\ (offset < 0 \/ offset + limit < 0 ->
      respond (fst out) = HttpFail 500 "something went wrong")
  /\ (0 <= offset -> 0 <= offset + limit -> total <= offset \/ limit <= 0 ->
      fst out = inr {| page_limit := limit; page_offset := offset;
                       total_rows := total; rows := [] |}).
Proof.
  cbv zeta. unfold get_warehouse_llm_analysis_sessions. split; [|split].
  - destruct (slice _ _ _); reflexivity.
  - intros Hneg. unfold slice.
    assert ((offset <? 0) || (offset + limit <? 0) = true) as ->.
    { apply orb_true_iff. rewrite !Z.ltb_lt. exact Hneg. }
    reflexivity.
  - intros Ho Hs Hedge. rewrite (slice_window offset limit) by assumption. cbn [fst].
    assert (take (Z.to_nat limit)
              (drop (Z.to_nat offset)
                 (order_by_updated_at_desc (saved_sessions (orguser_org request) w))) = [])
      as ->; [|reflexivity].
    destruct Hedge as [Hpast | Hneg].
    + rewrite drop_ge; [destruct (Z.to_nat limit); reflexivity|].
      unfold order_by_updated_at_desc.
      rewrite (Permutation_length (merge_sort_Permutation updated_later _)). lia.
    + replace (Z.to_nat limit) with 0%nat by lia. reflexivity.
Qed.

Lemma listing_window_edges_witness :
  respond (fst (get_warehouse_llm_analysis_sessions sample_user 10 (-1) listing_world))
  = HttpFail 500 "something went wrong"
  /\ fst (get_warehouse_llm_analysis_sessions sample_user 10 3 listing_world)
     = inr {| page_limit := 10; page_offset := 3; total_rows := 3; rows := [] |}.
Proof.
  split.
  - apply (proj1 (proj2 (listing_window_edges sample_user 10 (-1) listing_world))).
    left. lia.
  - apply (proj2 (proj2 (listing_window_edges sample_user 10 3 listing_world))); try lia.
    left. vm_compute. discriminate.
Defined.

(** ** What post_warehouse_prompt lets through *)



Lemma lookup_warehouse_found (org_ : Z) (w : World) (org_warehouse : OrgWarehouse) :
  lookup_warehouse org_ w = Some org_warehouse ->
  In org_warehouse (orgwarehouses w) /\ wh_org org_warehouse = org_.
Proof.
  intros H. apply first_filter_Some in H as [Hin Hm].
  apply bool_decide_eq_true in Hm. auto.
Qed.



Lemma dispatch_summarize_failure env orguser org_warehouse text prompt w exc w' :
  dispatch_summarize env orguser org_warehouse text prompt w = (inl exc, w') ->
  exc = HttpError 400 "failed to summarize warehouse results".
Proof.
  unfold dispatch_summarize, try_except, bind, apply_async, SingleTaskProgress, raise, ret.
  destruct (broker env); [destruct (redis_up env)|]; intros H; inversion H; reflexivity.
Qed.

(** X11. Every refusal that is not the failure of the dispatch itself
    leaves the world as it was: when the handler raises anything but 400
    "failed to summarize warehouse results", nothing was put on the queue and
    nothing was written. *)
Theorem post_warehouse_prompt_refusal_changes_nothing parse MAX env request payload w exc w' :
  post_warehouse_prompt parse MAX env request payload w = (inl exc, w') ->
  exc <> HttpError 400 "failed to summarize warehouse results" ->
  w' = w.
Proof.
  unfold post_warehouse_prompt, bind, OrgWarehouse_first, raise.
  destruct (1 <? length (parse (sql payload)))%nat; [intros H _; inversion H; reflexivity|].
  destruct (parse (sql payload)) as [|stmt0 rest]; [intros H _; inversion H; reflexivity|].
  destruct (negb (bool_decide (get_type stmt0 = "SELECT"%string)));
    [intros H _; inversion H; reflexivity|].
  destruct (first wh_id _) as [org_warehouse|]; [|intros H _; inversion H; reflexivity].
  destruct (scan_stmts (stmt0 :: rest) false Inf) as [e | [found limit]];
    [intros H _; inversion H; reflexivity|].
  destruct (found && limit_gt limit MAX); [intros H _; inversion H; reflexivity|].
  intros H Hne. apply dispatch_summarize_failure in H. contradiction.
Qed.

Lemma post_warehouse_prompt_refusal_changes_nothing_witness :
  snd (post_warehouse_prompt sample_parse 1000 env_up sample_user (ask "DROP TABLE t")
         (world_of [sample_warehouse] []))
  = world_of [sample_warehouse] [].
Proof.
  apply (post_warehouse_prompt_refusal_changes_nothing sample_parse 1000 env_up sample_user
           (ask "DROP TABLE t") (world_of [sample_warehouse] [])
           (HttpError 400 "Only SELECT queries are allowed")).
  - reflexivity.
  - discriminate.
Defined.

(** ** What post_data_insights touches *)

(** X12. Without a warehouse the insights handler answers 404 and changes
    nothing.  In every case it leaves the tables and the guards alone, changes
    the progress store under no other key than that of the identifier it drew,
    and puts on the queue at most one task, which carries that identifier, the
    payload as it came and a warehouse of the user's own organisation. *)
Theorem post_data_insights_frame prefix env request payload w :
  let out := post_data_insights prefix env request payload w in
  (lookup_warehouse (orguser_org request) w = None ->
   out = (inl (HttpError 404 "Please set up your warehouse first"), w))
  /\ orgwarehouses (snd out) = orgwarehouses w
  /\ llmsessions (snd out) = llmsessions w
  /\ singletaskprogress (snd out) = singletaskprogress w
  /\ (forall key, key <> TaskProgress_key prefix (uuid4 env) ->
                  taskprogress (snd out) !! key = taskprogress w !! key)
  /\ (celery_queue (snd out) = celery_queue w
      \/ exists org_warehouse,
           In org_warehouse (orgwarehouses w)
           /\ wh_org org_warehouse = orguser_org request
           /\ celery_queue (snd out)
              = celery_queue w
                ++ [poll_for_column_insights (wh_id org_warehouse) payload (uuid4 env)]).
Proof.
  cbv zeta. unfold post_data_insights, bind, OrgWarehouse_first.
  fold (lookup_warehouse (orguser_org request) w).
  destruct (lookup_warehouse (orguser_org request) w) as [org_warehouse|] eqn:Hwh.
  - split; [discriminate|].
    apply lookup_warehouse_found in Hwh as [Hin Horg].
    unfold try_except, bind, TaskProgress_add, apply_async, raise, ret.
    destruct (redis_up env).
    + destruct (broker env); cbn.
      * repeat split; [intros key Hne; apply lookup_insert_ne; congruence|].
        right. exists org_warehouse. auto.
      * repeat split; [intros key Hne; apply lookup_insert_ne; congruence|].
        left. reflexivity.
    + cbn. repeat split. left. reflexivity.
  - cbn. repeat split. left. reflexivity.
Qed.

Lemma post_data_insights_frame_witness :
  post_data_insights "insights-" env_up sample_user sample_column (world_of [] [])
  = (inl (HttpError 404 "Please set up your warehouse first"), world_of [] []).
Proof.
  apply (proj1 (post_data_insights_frame "insights-" env_up sample_user sample_column
                  (world_of [] []))).
  reflexivity.
Defined.

(** ** Reading the warehouse *)

Lemma reads_only_ret {A} (a : A) : reads_only (ret a).
Proof. intros w. reflexivity. Qed.

Lemma reads_only_raise {A} (exc : Exception) : reads_only (@raise A exc).
Proof. intros w. reflexivity. Qed.

Lemma reads_only_lift {A} (r : Exception + A) : reads_only (lift r).
Proof. intros w. reflexivity. Qed.

Lemma reads_only_kwarg {A} (field : option A) : reads_only (kwarg field).
Proof. destruct field; intros w; reflexivity. Qed.

Lemma reads_only_OrgWarehouse_first (org_ : Z) : reads_only (OrgWarehouse_first org_).
Proof. intros w. reflexivity. Qed.

Lemma reads_only_bind {A B} (m : M A) (k : A -> M B) :
  reads_only m -> (forall a, reads_only (k a)) -> reads_only (bind m k).
Proof.
  intros Hm Hk w. unfold bind. specialize (Hm w).
  destruct (m w) as [[exc | a] w1]; simpl in *; subst w1; [reflexivity | apply Hk].
Qed.

Lemma reads_only_try_except {A} (m : M A) (handler : Exception -> M A) :
  reads_only m -> (forall exc, reads_only (handler exc)) -> reads_only (try_except m handler).
Proof.
  intros Hm Hh w. unfold try_except. specialize (Hm w).
  destruct (m w) as [[exc | a] w1]; simpl in *; subst w1; [apply Hh | reflexivity].
Qed.

Lemma reads_only_if {A} (b : bool) (m1 m2 : M A) :
  reads_only m1 -> reads_only m2 -> reads_only (if b then m1 else m2).
Proof. destruct b; auto. Qed.

Create HintDb reads discriminated.
#[local] Hint Resolve reads_only_ret reads_only_raise reads_only_lift reads_only_kwarg
  reads_only_OrgWarehouse_first reads_only_bind reads_only_try_except reads_only_if : reads.


(** A [try] whose handler raises one fixed exception, followed by a
    conversion of its result, answers a converted result or raises that
    exception. *)
Lemma try_except_funnel {A B} (m : M A) (exc : Exception) (f : A -> B) (w : World) :
  let out := bind (try_except m (fun _ => raise exc)) (fun a => ret (f a)) w in
  (exists a, fst out = inr (f a)) \/ fst out = inl exc.
Proof.
  cbv zeta. unfold bind, try_except, raise, ret.
  destruct (m w) as [[e | a] w1]; simpl; eauto.
Qed.


(** X14. A [data_type] that is none of the four the function knows is no
    error: once the client is built, the answer is the conversion of the
    empty list, and no keyword argument is looked at. *)
Theorem get_warehouse_data_unknown_type svc request data_type kwargs w client :
  data_type <> "tables"%string -> data_type <> "schemas"%string ->
  data_type <> "table_columns"%string -> data_type <> "table_data"%string ->
  _get_wclient svc (lookup_warehouse (orguser_org request) w) = inr client ->
  get_warehouse_data svc request data_type kwargs w
  = (inr (convert_to_standard_types svc []), w).
Proof.
  intros H1 H2 H3 H4 Hclient.
  unfold get_warehouse_data, bind, try_except, OrgWarehouse_first, lift.
  unfold lookup_warehouse in Hclient. rewrite Hclient.
  rewrite !bool_decide_eq_false_2 by assumption. reflexivity.
Qed.

Lemma get_warehouse_data_unknown_type_witness :
  get_warehouse_data sample_services sample_user "table" no_kwargs
    (world_of [sample_warehouse] [])
  = (inr [], world_of [sample_warehouse] []).
Proof.
  apply (get_warehouse_data_unknown_type sample_services sample_user "table" no_kwargs
           (world_of [sample_warehouse] []) sample_client); try discriminate.
  reflexivity.
Defined.

(** ** The rows of table_data *)







(** ** The other readers *)



(** X17. The guards of [get_json_column_spec], in their order: without a
    warehouse the answer is 404, whatever the parameters; with a warehouse
    and an empty parameter it is 400 "Missing required parameters"; only with
    a warehouse and three parameters that are not empty is the service
    consulted, and its answer, or its exception, is the handler's.  The world
    is never changed. *)
Theorem get_json_column_spec_guards svc request source_schema input_name json_column w :
  let out := get_json_column_spec svc request source_schema input_name json_column w in
  snd out = w
  /\ (lookup_warehouse (orguser_org request) w = None ->
      fst out = inl (HttpError 404 "Please set up your warehouse first"))
  /\ (forall org_warehouse,
        lookup_warehouse (orguser_org request) w = Some org_warehouse ->
        source_schema = ""%string \/ input_name = ""%string \/ json_column = ""%string ->
        fst out = inl (HttpError 400 "Missing required parameters"))
  /\ (forall org_warehouse,
        lookup_warehouse (orguser_org request) w = Some org_warehouse ->
        source_schema <> ""%string -> input_name <> ""%string -> json_column <> ""%string ->
        fst out = json_columnspec svc org_warehouse source_schema input_name json_column).
Proof.
  cbv zeta. unfold get_json_column_spec, bind, OrgWarehouse_first, all_filled.
  fold (lookup_warehouse (orguser_org request) w).
  destruct (lookup_warehouse (orguser_org request) w) as [org_warehouse|].
  - cbn [forallb]. split; [|split; [discriminate|split]].
    + destruct (negb _); reflexivity.
    + intros wh Hwh Hempty. inversion Hwh; subst wh.
      assert (negb (bool_decide (source_schema = ""%string))
              && (negb (bool_decide (input_name = ""%string))
                  && (negb (bool_decide (json_column = ""%string)) && true)) = false) as ->;
        [|reflexivity].
      destruct Hempty as [-> | [-> | ->]]; cbn;
        rewrite ?andb_false_r; reflexivity.
    + intros wh Hwh H1 H2 H3. inversion Hwh; subst wh.
      rewrite !bool_decide_eq_false_2 by assumption. reflexivity.
  - split; [reflexivity|]. split; [reflexivity|]. split; discriminate.
Qed.

Lemma get_json_column_spec_guards_witness :
  fst (get_json_column_spec sample_services sample_user "" "t" "c" (world_of [] []))
  = inl (HttpError 404 "Please set up your warehouse first")
  /\ fst (get_json_column_spec sample_services sample_user "public" "" "c"
            (world_of [sample_warehouse] []))
     = inl (HttpError 400 "Missing required parameters")
  /\ fst (get_json_column_spec sample_services sample_user "public" "t" "c"
            (world_of [sample_warehouse] []))
     = inr (PyList [PyStr "a"; PyStr "b"]).
Proof.
  split; [|split].
  - apply (proj1 (proj2 (get_json_column_spec_guards sample_services sample_user "" "t" "c"
                           (world_of [] [])))).
    reflexivity.
  - apply (proj1 (proj2 (proj2 (get_json_column_spec_guards sample_services sample_user
                                  "public" "" "c" (world_of [sample_warehouse] []))))
             sample_warehouse eq_refl).
    right. left. reflexivity.
  - apply (proj2 (proj2 (proj2 (get_json_column_spec_guards sample_services sample_user
                                  "public" "t" "c" (world_of [sample_warehouse] []))))
             sample_warehouse eq_refl); discriminate.
Defined.

(** X18. The errors of [get_warehouse_table_columns_spec], for an
    organisation with a warehouse whose credentials are read: an exception of
    the connection or of the client's call is answered 404 "Table not found"
    when it is [NoSuchTableError], and otherwise 500 with the text of the
    exception itself as detail; when reading the credentials raises, the
    exception is not caught by the handler and the answer is the 500
    "something went wrong" of the default handler. *)
Theorem get_warehouse_table_columns_spec_errors svc request schema_name table_name w
    org_warehouse :
  lookup_warehouse (orguser_org request) w = Some org_warehouse ->
  let out := get_warehouse_table_columns_spec svc request schema_name table_name w in
  (forall name,
     retrieve_warehouse_credentials svc org_warehouse = inl (PyError name) ->
     respond (fst out) = HttpFail 500 "something went wrong")
  /\ (forall credentials exc,
        retrieve_warehouse_credentials svc org_warehouse = inr credentials ->
        (WarehouseFactory_connect svc credentials (wtype org_warehouse) = inl exc
         \/ exists wclient,
              WarehouseFactory_connect svc credentials (wtype org_warehouse) = inr wclient
              /\ Client.get_table_columns wclient schema_name table_name = inl exc) ->
        respond (fst out)
        = if is_NoSuchTableError exc
          then HttpFail 404 "Table not found"
          else HttpFail 500 (exception_text exc))
  /\ (forall credentials wclient cols,
        retrieve_warehouse_credentials svc org_warehouse = inr credentials ->
        WarehouseFactory_connect svc credentials (wtype org_warehouse) = inr wclient ->
        Client.get_table_columns wclient schema_name table_name = inr cols ->
        out = (inr cols, w)).
Proof.
  intros Hwh. cbv zeta.
  unfold get_warehouse_table_columns_spec, bind, OrgWarehouse_first, lift, try_except, ret.
  unfold lookup_warehouse in Hwh. rewrite Hwh. split; [|split].
  - intros name Hcred. rewrite Hcred. reflexivity.
  - intros credentials exc Hcred [Hconn | (wclient & Hconn & Hcols)];
      rewrite Hcred, Hconn; [|rewrite Hcols]; destruct (is_NoSuchTableError exc); reflexivity.
  - intros credentials wclient cols Hcred Hconn Hcols. rewrite Hcred, Hconn, Hcols. reflexivity.
Qed.

Lemma get_warehouse_table_columns_spec_errors_witness :
  respond (fst (get_warehouse_table_columns_spec sample_services sample_user "public" "x"
                  (world_of [sample_warehouse] [])))
  = HttpFail 404 "Table not found".
Proof.
  apply (proj1 (proj2 (get_warehouse_table_columns_spec_errors sample_services sample_user
                         "public" "x" (world_of [sample_warehouse] []) sample_warehouse eq_refl))
           "{}"%string (PyError "sqlalchemy.exc.NoSuchTableError") eq_refl).
  right. exists sample_client. split; reflexivity.
Defined.

(** ** The download *)

Lemma row_lines_dicts svc (data : list PyValue) :
  Forall (fun row => is_dict row = true) data ->
  row_lines svc data = (csv_lines svc data, None).
Proof.
  unfold csv_lines. induction 1 as [|row data Hrow _ IH]; [reflexivity|].
  simpl. destruct row; try discriminate Hrow. simpl.
  rewrite IH. reflexivity.
Qed.

Lemma fetch_page_failure svc request schema_name table_name page_size order_by order w page exc :
  fetch_page svc request schema_name table_name page_size order_by order w page = inl exc ->
  exc = HttpError 500 "Failed to get table_data".
Proof.
  unfold fetch_page, get_warehouse_data. intros H.
  match type of H with
  | fst (bind (try_except ?m _) (fun a => ret (?f a)) w) = _ =>
      destruct (try_except_funnel m (HttpError 500 ("Failed to get " ++ "table_data")) f w)
        as [[a Ha] | Ha]
  end; rewrite Ha in H; inversion H. reflexivity.
Qed.

(** How the generator, past its first page, goes through the pages [pages]
    that follow [page] and ends on what comes after them. *)
Lemma stream_following_pages svc request schema_name table_name page_size order_by order w
    (pages : list (list PyValue)) (ending : StreamEnd) :
  forall (page : Z) (fuel : nat),
    (forall i data, pages !! i = Some data ->
       fetch_page svc request schema_name table_name page_size order_by order w
         (page + Z.of_nat i) = inr data
       /\ data <> [] /\ Forall (fun row => is_dict row = true) data) ->
    (fetch_page svc request schema_name table_name page_size order_by order w
       (page + Z.of_nat (length pages)) = inr [] /\ ending = Finished
     \/ exists exc,
          fetch_page svc request schema_name table_name page_size order_by order w
            (page + Z.of_nat (length pages)) = inl exc /\ ending = Raised exc) ->
    (length pages < fuel)%nat ->
    stream_warehouse_data svc request schema_name table_name page_size order_by order w
      fuel page true
    = (concat (map (csv_lines svc) pages), ending).
Proof.
  induction pages as [|data pages IH]; intros page fuel Hpages Hend Hfuel.
  - destruct fuel as [|fuel]; [simpl in Hfuel; lia|].
    simpl in Hend. rewrite Z.add_0_r in Hend. unfold fetch_page in Hend.
    cbn [stream_warehouse_data].
    destruct Hend as [[-> ->] | (exc & -> & ->)]; reflexivity.
  - destruct fuel as [|fuel]; [simpl in Hfuel; lia|].
    destruct (Hpages 0%nat data eq_refl) as (Hfetch & Hne & Hdicts).
    rewrite Z.add_0_r in Hfetch. unfold fetch_page in Hfetch.
    cbn [stream_warehouse_data]. rewrite Hfetch.
    destruct data as [|first_row data]; [contradiction|].
    rewrite (row_lines_dicts svc (first_row :: data) Hdicts).
    rewrite (IH (page + 1) fuel).
    + reflexivity.
    + intros i d Hi. specialize (Hpages (S i) d Hi).
      replace (page + 1 + Z.of_nat i) with (page + Z.of_nat (S i)) by lia. exact Hpages.
    + cbn [length] in Hend.
      replace (page + 1 + Z.of_nat (length pages))
        with (page + Z.of_nat (S (length pages))) by lia.
      exact Hend.
    + simpl in Hfuel. lia.
Qed.

Lemma csv_lines_length svc (data : list PyValue) :
  Forall (fun row => is_dict row = true) data -> length (csv_lines svc data) = length data.
Proof.
  unfold csv_lines. induction 1 as [|row data Hrow Hdata IH]; [reflexivity|].
  simpl. destruct row; try discriminate Hrow. simpl.
  rewrite (row_lines_dicts svc data Hdata). simpl. f_equal. exact IH.
Qed.

Lemma csv_lines_count svc (pages : list (list PyValue)) :
  (forall data, In data pages -> Forall (fun row => is_dict row = true) data) ->
  length (concat (map (csv_lines svc) pages)) = length (concat pages).
Proof.
  induction pages as [|data pages IH]; intros H; [reflexivity|].
  simpl. rewrite !length_app, IH by (intros d Hd; apply H; right; exact Hd).
  rewrite (csv_lines_length svc data) by (apply H; left; reflexivity). reflexivity.
Qed.

(** The generator from its start. *)
Lemma stream_from_start svc request schema_name table_name page_size order_by order w
    (pages : list (list PyValue)) (ending : StreamEnd) (fuel : nat) :
  (forall i data, pages !! i = Some data ->
     fetch_page svc request schema_name table_name page_size order_by order w (Z.of_nat i)
     = inr data
     /\ data <> [] /\ Forall (fun row => is_dict row = true) data) ->
  (fetch_page svc request schema_name table_name page_size order_by order w
     (Z.of_nat (length pages)) = inr [] /\ ending = Finished
   \/ exists exc,
        fetch_page svc request schema_name table_name page_size order_by order w
          (Z.of_nat (length pages)) = inl exc /\ ending = Raised exc) ->
  (length pages < fuel)%nat ->
  stream_warehouse_data svc request schema_name table_name page_size order_by order w
    fuel 0 false
  = (csv_header pages ++ concat (map (csv_lines svc) pages), ending).
Proof.
  intros Hpages Hend Hfuel.
  destruct fuel as [|fuel]; [lia|].
  destruct pages as [|data pages].
  - change (Z.of_nat (length (@nil (list PyValue)))) with 0%Z in Hend.
    unfold fetch_page in Hend. cbn [stream_warehouse_data].
    destruct Hend as [[-> ->] | (exc & -> & ->)]; reflexivity.
  - destruct (Hpages 0%nat data eq_refl) as (Hfetch & Hne & Hdicts).
    unfold fetch_page in Hfetch. change (Z.of_nat 0%nat) with 0%Z in Hfetch.
    cbn [stream_warehouse_data]. rewrite Hfetch.
    destruct data as [|first_row data]; [contradiction|].
    rewrite (row_lines_dicts svc (first_row :: data) Hdicts).
    assert (is_dict first_row = true) as Hfirst by (inversion Hdicts; assumption).
    destruct first_row; try discriminate Hfirst.
    cbn [header_line csv_header].
    rewrite (stream_following_pages svc request schema_name table_name page_size order_by
               order w pages ending (0 + 1) fuel).
    + reflexivity.
    + intros i d Hi. specialize (Hpages (S i) d Hi).
      replace (0 + 1 + Z.of_nat i) with (Z.of_nat (S i)) by lia. exact Hpages.
    + cbn [length] in Hend.
      replace (0 + 1 + Z.of_nat (length pages)) with (Z.of_nat (S (length pages))) by lia.
      exact Hend.
    + simpl in Hfuel. lia.
Qed.

(** X19. The download of a table.  For an organisation with a warehouse,
    when the pages 0, 1, ... of 30000 rows are the lists [pages], each with
    rows, followed by a page without rows, the answer is an attachment named
    <schema>__<table>.csv whose content, once the consumer has made more turns
    than there are pages, is complete: one header line, from the keys of the
    first row of the first page, when there is a page at all, then one line
    for each row of each page in their order, and the generator has returned.
    An empty table gives an empty file, without a header. *)
Theorem download_streams_every_page svc request schema_name table_name w org_warehouse
    (pages : list (list PyValue)) :
  lookup_warehouse (orguser_org request) w = Some org_warehouse ->
  (forall i data, pages !! i = Some data ->
     fetch_page svc request schema_name table_name 30000 None 1 w (Z.of_nat i) = inr data
     /\ data <> [] /\ Forall (fun row => is_dict row = true) data) ->
  fetch_page svc request schema_name table_name 30000 None 1 w (Z.of_nat (length pages))
  = inr [] ->
  exists response,
    get_download_warehouse_data svc request schema_name table_name w = (inr response, w)
    /\ content_disposition response
       = ("attachment; filename=" ++ schema_name ++ "__" ++ table_name ++ ".csv")%string
    /\ (forall fuel, (length pages < fuel)%nat ->
          streaming_content response fuel
          = (csv_header pages ++ concat (map (csv_lines svc) pages), Finished))
    /\ length (concat (map (csv_lines svc) pages)) = length (concat pages)
    /\ (pages = [] -> forall fuel, (0 < fuel)%nat -> streaming_content response fuel = ([], Finished)).
Proof.
  intros Hwh Hpages Hend.
  unfold get_download_warehouse_data, bind, OrgWarehouse_first.
  unfold lookup_warehouse in Hwh. rewrite Hwh.
  eexists. split; [reflexivity|]. cbn [content_disposition streaming_content].
  split; [reflexivity|].
  assert (forall fuel, (length pages < fuel)%nat ->
            stream_warehouse_data svc request schema_name table_name 30000 None 1 w fuel 0 false
            = (csv_header pages ++ concat (map (csv_lines svc) pages), Finished)) as Hstream.
  { intros fuel Hfuel. apply stream_from_start; [exact Hpages | left; auto | exact Hfuel]. }
  split; [exact Hstream|]. split.
  - apply csv_lines_count. intros data Hin.
    apply list_elem_of_In, list_elem_of_lookup in Hin as [i Hi].
    apply (Hpages i data Hi).
  - intros -> fuel Hfuel. apply (Hstream fuel). exact Hfuel.
Qed.

Lemma download_streams_every_page_witness :
  exists response,
    get_download_warehouse_data sample_services sample_user "public" "t"
      (world_of [sample_warehouse] [])
    = (inr response, world_of [sample_warehouse] [])
    /\ content_disposition response = "attachment; filename=public__t.csv"%string
    /\ streaming_content response 3
       = (map (fun line => (line ++ newline)%string)
            ["id,tags,meta"; "1,[1, 2],{}"; "2,[2, 3],{}"; "3,[3, 4],{}"]%string,
          Finished).
Proof.
  destruct (download_streams_every_page sample_services sample_user "public" "t"
              (world_of [sample_warehouse] []) sample_warehouse
              [[dumped_row 1 "[1, 2]"; dumped_row 2 "[2, 3]"]; [dumped_row 3 "[3, 4]"]]
              eq_refl)
    as (response & Hout & Hname & Hcontent & _).
  - intros [|[|i]] data Hi; simpl in Hi; inversion Hi; subst;
      (split; [reflexivity|]); (split; [discriminate|]); repeat constructor.
  - reflexivity.
  - exists response. split; [exact Hout|]. split; [exact Hname|].
    rewrite (Hcontent 3%nat) by (simpl; lia). reflexivity.
Defined.

(** X20. A download that fails on the way is a truncated file.  When the
    pages [pages] are read and the page after them cannot be, the consumer has
    by then received the header and the lines of all the rows of [pages], and
    the generator ends by raising 500 "Failed to get table_data". *)
Theorem download_truncated_on_failure svc request schema_name table_name w org_warehouse
    (pages : list (list PyValue)) exc :
  lookup_warehouse (orguser_org request) w = Some org_warehouse ->
  (forall i data, pages !! i = Some data ->
     fetch_page svc request schema_name table_name 30000 None 1 w (Z.of_nat i) = inr data
     /\ data <> [] /\ Forall (fun row => is_dict row = true) data) ->
  fetch_page svc request schema_name table_name 30000 None 1 w (Z.of_nat (length pages))
  = inl exc ->
  exc = HttpError 500 "Failed to get table_data"
  /\ exists response,
       get_download_warehouse_data svc request schema_name table_name w = (inr response, w)
       /\ forall fuel, (length pages < fuel)%nat ->
            streaming_content response fuel
            = (csv_header pages ++ concat (map (csv_lines svc) pages),
               Raised (HttpError 500 "Failed to get table_data")).
Proof.
  intros Hwh Hpages Hend.
  pose proof (fetch_page_failure _ _ _ _ _ _ _ _ _ _ Hend) as ->.
  split; [reflexivity|].
  unfold get_download_warehouse_data, bind, OrgWarehouse_first.
  unfold lookup_warehouse in Hwh. rewrite Hwh.
  eexists. split; [reflexivity|]. cbn [streaming_content].
  intros fuel Hfuel. apply stream_from_start; [exact Hpages | | exact Hfuel].
  right. eexists. split; [exact Hend | reflexivity].
Qed.

Lemma download_truncated_on_failure_witness :
  exists response,
    get_download_warehouse_data flaky_services sample_user "public" "t"
      (world_of [sample_warehouse] [])
    = (inr response, world_of [sample_warehouse] [])
    /\ streaming_content response 2
       = (map (fun line => (line ++ newline)%string)
            ["id,tags,meta"; "1,[1, 2],{}"; "2,[2, 3],{}"]%string,
          Raised (HttpError 500 "Failed to get table_data")).
Proof.
  destruct (download_truncated_on_failure flaky_services sample_user "public" "t"
              (world_of [sample_warehouse] []) sample_warehouse
              [[dumped_row 1 "[1, 2]"; dumped_row 2 "[2, 3]"]]
              (HttpError 500 "Failed to get table_data") eq_refl)
    as (_ & response & Hout & Hcontent).
  - intros [|i] data Hi; simpl in Hi; inversion Hi; subst;
      (split; [reflexivity|]); (split; [discriminate|]); repeat constructor.
  - reflexivity.
  - exists response. split; [exact Hout|].
    rewrite (Hcontent 2%nat) by (simpl; lia). reflexivity.
Defined.

(** ** The limit the handler writes *)






(** ** The endpoints of get_warehouse_data *)

(** X22. The endpoints pass every keyword argument that their
    [data_type] reads: [get_table], [get_schema] and [get_table_columns]
    answer the conversion of what the client answers whenever the client is
    built and answers, and fail, with 500 "Failed to get <data_type>", only
    when the client cannot be built or raises. *)
Theorem warehouse_endpoints_answer_the_client svc request schema_name table_name w client :
  _get_wclient svc (lookup_warehouse (orguser_org request) w) = inr client ->
  get_table svc request schema_name w
  = (match Client.get_tables client schema_name with
     | inr data => inr (convert_to_standard_types svc data)
     | inl _ => inl (HttpError 500 "Failed to get tables")
     end, w)
  /\ get_schema svc request w
     = (match Client.get_schemas client with
        | inr data => inr (convert_to_standard_types svc data)
        | inl _ => inl (HttpError 500 "Failed to get schemas")
        end, w)
  /\ get_table_columns svc request schema_name table_name w
     = (match Client.get_table_columns client schema_name table_name with
        | inr data => inr (convert_to_standard_types svc data)
        | inl _ => inl (HttpError 500 "Failed to get table_columns")
        end, w).
Proof.
  intros Hclient. unfold lookup_warehouse in Hclient.
  unfold get_table, get_schema, get_table_columns, get_warehouse_data, bind, try_except,
    OrgWarehouse_first, lift, kwarg, ret, raise.
  rewrite Hclient. cbn.
  destruct (Client.get_tables client schema_name), (Client.get_schemas client),
    (Client.get_table_columns client schema_name table_name); repeat split.
Qed.

Lemma warehouse_endpoints_answer_the_client_witness :
  get_table sample_services sample_user "public" (world_of [sample_warehouse] [])
  = (inr [PyStr "t"], world_of [sample_warehouse] [])
  /\ get_table_columns sample_services sample_user "public" "x" (world_of [sample_warehouse] [])
     = (inl (HttpError 500 "Failed to get table_columns"), world_of [sample_warehouse] []).
Proof.
  destruct (warehouse_endpoints_answer_the_client sample_services sample_user "public" "x"
              (world_of [sample_warehouse] []) sample_client eq_refl)
    as (Htable & _ & Hcolumns).
  split; [exact Htable | exact Hcolumns].
Defined.
